(** * Drone telemetry dashboard: bounded history store, generator, pose
      transform and reconnecting consumer.

    Shallow embedding of [src/dashboard.py] and [src/transmitter.py].

    Conventions.
    - Python values that travel in messages are [pyval]; a [dict] is an
      association list read with first-match lookup.
    - A call that may raise returns a [sum exn _]; a method that mutates
      [self] and may raise is a state transformer that returns the
      state reached {e together with} the outcome, because in Python the
      writes made before a [raise] stay.
    - The generator's numbers are exact rationals ([Q]); [math.sin] and
      [math.cos] are parameters there.  The pose transform is stated
      over the reals, where the half-angle identities live. *)

From Stdlib Require Import ZArith QArith Qround List String Bool Lia.
From Stdlib Require Import Reals Psatz.
Import ListNotations.

Set Implicit Arguments.
Set Warnings "-register-all".
Open Scope string_scope.
Open Scope list_scope.

(* ------------------------------------------------------------------ *)
(** ** Python values and exceptions                                     *)
(* ------------------------------------------------------------------ *)

Module Py.

(** What [json.loads] builds, and what [generate_data] returns. *)
Inductive pyval : Type :=
| PNone
| PBool (b : bool)
| PInt (z : Z)
| PFloat (q : Q)
| PStr (s : string)
| PList (l : list pyval)
| PDict (kv : list (string * pyval)).

(** The exception classes the two programs can meet.  The first five
    derive from [Exception]; the last two derive from [BaseException]
    only. *)
Inductive exn : Type :=
| KeyError (k : string)
| TypeError
| ValueError
| ConnectionClosed
| OSError
| KeyboardInterrupt
| CancelledError.

Definition is_Exception (e : exn) : bool :=
  match e with
  | KeyboardInterrupt | CancelledError => false
  | _ => true
  end.

Definition result (A : Type) : Type := (exn + A)%type.

Fixpoint assoc (k : string) (kv : list (string * pyval)) : option pyval :=
  match kv with
  | [] => None
  | (k', v) :: rest => if String.eqb k k' then Some v else assoc k rest
  end.

(** [v[k]] with [k] a string literal: only a dict can be indexed so. *)
Definition getitem (v : pyval) (k : string) : result pyval :=
  match v with
  | PDict kv =>
      match assoc k kv with
      | Some x => inr x
      | None => inl (KeyError k)
      end
  | _ => inl TypeError
  end.

(** [v[k1][k2]]. *)
Definition getitem2 (v : pyval) (k1 k2 : string) : result pyval :=
  match getitem v k1 with
  | inl e => inl e
  | inr w => getitem w k2
  end.

(** [l[start:]] for an integer [start] of either sign. *)
Definition slice_from {A : Type} (l : list A) (start : Z) : list A :=
  let n := Z.of_nat (List.length l) in
  let s := if (start <? 0)%Z then Z.max (n + start) 0 else Z.min start n in
  skipn (Z.to_nat s) l.

End Py.
Import Py.

(* ------------------------------------------------------------------ *)
(** ** dashboard.py: [DataStore]                                        *)
(* ------------------------------------------------------------------ *)

Module Dashboard.

Definition MAX_DATA_POINTS : Z := 100.

Section Store.

(** [datetime] and [datetime.fromisoformat] belong to the Python
    library; [None] stands for its [ValueError]. *)
Variable datetime : Type.
Variable fromisoformat : string -> option datetime.

Record DataStore : Type := mkStore {
  max_points : Z;
  timestamps : list datetime;
  battery_voltage : list pyval;
  temperature : list pyval;
  altitude : list pyval;
  roll : list pyval;
  pitch : list pyval;
  yaw : list pyval;
  latitude : list pyval;
  longitude : list pyval;
  connection_strength : list pyval;
  latest_data : option pyval
}.

(** [DataStore.__init__]: no check of [max_points]. *)
Definition init (max_points : Z) : result DataStore :=
  inr (mkStore max_points [] [] [] [] [] [] [] [] [] [] None).

(** *** Field writes *)

Definition set_timestamps (x : list datetime) (s : DataStore) :=
  mkStore (max_points s) x (battery_voltage s) (temperature s)
    (altitude s) (roll s) (pitch s) (yaw s) (latitude s) (longitude s)
    (connection_strength s) (latest_data s).
Definition set_battery_voltage (x : list pyval) (s : DataStore) :=
  mkStore (max_points s) (timestamps s) x (temperature s)
    (altitude s) (roll s) (pitch s) (yaw s) (latitude s) (longitude s)
    (connection_strength s) (latest_data s).
Definition set_temperature (x : list pyval) (s : DataStore) :=
  mkStore (max_points s) (timestamps s) (battery_voltage s) x
    (altitude s) (roll s) (pitch s) (yaw s) (latitude s) (longitude s)
    (connection_strength s) (latest_data s).
Definition set_altitude (x : list pyval) (s : DataStore) :=
  mkStore (max_points s) (timestamps s) (battery_voltage s)
    (temperature s) x (roll s) (pitch s) (yaw s) (latitude s)
    (longitude s) (connection_strength s) (latest_data s).
Definition set_roll (x : list pyval) (s : DataStore) :=
  mkStore (max_points s) (timestamps s) (battery_voltage s)
    (temperature s) (altitude s) x (pitch s) (yaw s) (latitude s)
    (longitude s) (connection_strength s) (latest_data s).
Definition set_pitch (x : list pyval) (s : DataStore) :=
  mkStore (max_points s) (timestamps s) (battery_voltage s)
    (temperature s) (altitude s) (roll s) x (yaw s) (latitude s)
    (longitude s) (connection_strength s) (latest_data s).
Definition set_yaw (x : list pyval) (s : DataStore) :=
  mkStore (max_points s) (timestamps s) (battery_voltage s)
    (temperature s) (altitude s) (roll s) (pitch s) x (latitude s)
    (longitude s) (connection_strength s) (latest_data s).
Definition set_latitude (x : list pyval) (s : DataStore) :=
  mkStore (max_points s) (timestamps s) (battery_voltage s)
    (temperature s) (altitude s) (roll s) (pitch s) (yaw s) x
    (longitude s) (connection_strength s) (latest_data s).
Definition set_longitude (x : list pyval) (s : DataStore) :=
  mkStore (max_points s) (timestamps s) (battery_voltage s)
    (temperature s) (altitude s) (roll s) (pitch s) (yaw s)
    (latitude s) x (connection_strength s) (latest_data s).
Definition set_connection_strength (x : list pyval) (s : DataStore) :=
  mkStore (max_points s) (timestamps s) (battery_voltage s)
    (temperature s) (altitude s) (roll s) (pitch s) (yaw s)
    (latitude s) (longitude s) x (latest_data s).
Definition set_latest_data (x : option pyval) (s : DataStore) :=
  mkStore (max_points s) (timestamps s) (battery_voltage s)
    (temperature s) (altitude s) (roll s) (pitch s) (yaw s)
    (latitude s) (longitude s) (connection_strength s) x.

(** *** Methods as state transformers that may raise *)

Definition M (A : Type) : Type := DataStore -> DataStore * result A.

Definition ret {A} (a : A) : M A := fun s => (s, inr a).

Definition bind {A B} (m : M A) (k : A -> M B) : M B :=
  fun s =>
    match m s with
    | (s', inl e) => (s', inl e)
    | (s', inr a) => k a s'
    end.

(** Evaluate an expression that reads no field of [self]. *)
Definition eval {A} (r : result A) : M A := fun s => (s, r).

(** Read [self]. *)
Definition self : M DataStore := fun s => (s, inr s).

(** Assign to a field of [self]. *)
Definition assign (f : DataStore -> DataStore) : M unit :=
  fun s => (f s, inr tt).

Notation "x <- c1 ;; c2" := (bind c1 (fun x => c2))
  (at level 61, c1 at next level, right associativity).
Notation "c1 ;; c2" := (bind c1 (fun _ => c2))
  (at level 61, right associativity).

(** [datetime.fromisoformat(v)]. *)
Definition fromisoformat_py (v : pyval) : result datetime :=
  match v with
  | PStr s =>
      match fromisoformat s with
      | Some d => inr d
      | None => inl ValueError
      end
  | _ => inl TypeError
  end.

(** [DataStore.add_data], statement by statement. *)
Definition add_data (data : pyval) : M unit :=
  assign (set_latest_data (Some data)) ;;
  ts <- eval (getitem data "timestamp") ;;
  timestamp <- eval (fromisoformat_py ts) ;;
  (* Add new data points *)
  s <- self ;; assign (set_timestamps (timestamps s ++ [timestamp])) ;;
  v <- eval (getitem2 data "battery" "voltage") ;;
  s <- self ;; assign (set_battery_voltage (battery_voltage s ++ [v])) ;;
  v <- eval (getitem2 data "sensors" "temperature") ;;
  s <- self ;; assign (set_temperature (temperature s ++ [v])) ;;
  v <- eval (getitem2 data "sensors" "altitude") ;;
  s <- self ;; assign (set_altitude (altitude s ++ [v])) ;;
  v <- eval (getitem2 data "imu" "roll") ;;
  s <- self ;; assign (set_roll (roll s ++ [v])) ;;
  v <- eval (getitem2 data "imu" "pitch") ;;
  s <- self ;; assign (set_pitch (pitch s ++ [v])) ;;
  v <- eval (getitem2 data "imu" "yaw") ;;
  s <- self ;; assign (set_yaw (yaw s ++ [v])) ;;
  v <- eval (getitem2 data "gps" "latitude") ;;
  s <- self ;; assign (set_latitude (latitude s ++ [v])) ;;
  v <- eval (getitem2 data "gps" "longitude") ;;
  s <- self ;; assign (set_longitude (longitude s ++ [v])) ;;
  v <- eval (getitem2 data "connection" "signal_strength") ;;
  s <- self ;;
  assign (set_connection_strength (connection_strength s ++ [v])) ;;
  (* Trim lists if they exceed max_points *)
  s <- self ;;
  if (Z.of_nat (List.length (timestamps s)) >? max_points s)%Z then
    s <- self ;;
    assign (set_timestamps (slice_from (timestamps s) (- max_points s))) ;;
    s <- self ;;
    assign (set_battery_voltage
              (slice_from (battery_voltage s) (- max_points s))) ;;
    s <- self ;;
    assign (set_temperature (slice_from (temperature s) (- max_points s))) ;;
    s <- self ;;
    assign (set_altitude (slice_from (altitude s) (- max_points s))) ;;
    s <- self ;;
    assign (set_roll (slice_from (roll s) (- max_points s))) ;;
    s <- self ;;
    assign (set_pitch (slice_from (pitch s) (- max_points s))) ;;
    s <- self ;;
    assign (set_yaw (slice_from (yaw s) (- max_points s))) ;;
    s <- self ;;
    assign (set_latitude (slice_from (latitude s) (- max_points s))) ;;
    s <- self ;;
    assign (set_longitude (slice_from (longitude s) (- max_points s))) ;;
    s <- self ;;
    assign (set_connection_strength
              (slice_from (connection_strength s) (- max_points s)))
  else ret tt.

(** [process_queue(n)]: drain [data_queue] into [data_store], then
    return [n].  The only handler is for [queue.Empty], which a
    non-empty queue never raises, so an exception of [add_data] leaves
    the callback; the message that caused it has already been taken off
    the queue.  The triple is (queue left, store reached, outcome). *)
Fixpoint process_queue (n : Z) (data_queue : list pyval)
    (data_store : DataStore) : list pyval * DataStore * result Z :=
  match data_queue with
  | [] => ([], data_store, inr n)
  | data :: rest =>
      match add_data data data_store with
      | (st, inl e) => (rest, st, inl e)
      | (st, inr _) => process_queue n rest st
      end
  end.

End Store.

End Dashboard.

(* ------------------------------------------------------------------ *)
(** ** transmitter.py: [DroneDataGenerator]                             *)
(* ------------------------------------------------------------------ *)

Module Transmitter.

Local Open Scope Q_scope.

Definition UPDATE_INTERVAL : Q := 0.1.

(** *** Python arithmetic on exact rationals

    A Python [float] is a binary64 number; here the arithmetic is
    exact, so what follows is about the update rules and about decimal
    rounding, not about the error of binary floating point. *)

Definition ltb (x y : Q) : bool :=
  match Qcompare x y with Lt => true | _ => false end.

(** [min(a, b)] and [max(a, b)] keep the first argument unless the
    second one is strictly smaller, respectively greater. *)
Definition py_min (a b : Q) : Q := if ltb b a then b else a.
Definition py_max (a b : Q) : Q := if ltb a b then b else a.

(** [x % m]: the remainder has the sign of [m]. *)
Definition py_mod (x m : Q) : Q := x - m * inject_Z (Qfloor (x / m)).

(** Nearest integer, ties to the even one. *)
Definition round_half_even (x : Q) : Z :=
  let f := Qfloor x in
  match Qcompare (x - inject_Z f) 0.5 with
  | Lt => f
  | Gt => (f + 1)%Z
  | Eq => if Z.even f then f else (f + 1)%Z
  end.

(** [round(x, ndigits)] for [ndigits >= 0]. *)
Definition py_round (x : Q) (ndigits : nat) : Q :=
  let p := inject_Z (10 ^ Z.of_nat ndigits) in
  inject_Z (round_half_even (x * p)) / p.

(** [random.choices(population, weights=weights)[0]], where [u] is the
    draw of [random.random()] it makes: the first element whose
    cumulative weight exceeds [u * total], the last one otherwise. *)
Fixpoint bisect_pick (population : list string) (weights : list Q)
    (x : Q) (dflt : string) : string :=
  match population, weights with
  | [], _ => dflt
  | [p], _ => p
  | p :: _, [] => p
  | p :: ps, w :: ws =>
      if ltb x w then p else bisect_pick ps ws (x - w) p
  end.

Definition total (weights : list Q) : Q := fold_right Qplus 0 weights.

Definition choices (population : list string) (weights : list Q) (u : Q)
  : string :=
  bisect_pick population weights (u * total weights) "".

(** *** The generator *)

Record DroneDataGenerator : Type := mkGen {
  battery_voltage : Q;
  temperature : Q;
  altitude : Q;
  latitude : Q;
  longitude : Q;
  roll : Q;
  pitch : Q;
  yaw : Q;
  connection_states : list string;
  connection_health : string;
  time_offset : Q
}.

(** [DroneDataGenerator.__init__]. *)
Definition init : DroneDataGenerator :=
  {| battery_voltage := 12.0;
     temperature := 25.0;
     altitude := 100.0;
     latitude := 37.7749;
     longitude := -122.4194;
     roll := 0.0;
     pitch := 0.0;
     yaw := 0.0;
     connection_states := ["Excellent"; "Good"; "Fair"; "Poor"; "No Signal"];
     connection_health := "Excellent";
     time_offset := 0 |}.

(** What one call of [generate_data] reads from outside: the clock and
    the random module, one field per call site, in source order. *)
Record draws : Type := mkDraws {
  now_isoformat : string;  (* datetime.now().isoformat()    line 71 *)
  u_battery : Q;           (* random.uniform(-0.01, 0.01)   line 42 *)
  u_temperature : Q;       (* random.uniform(-0.1, 0.1)     line 46 *)
  u_roll : Q;              (* random.uniform(-2, 2)         line 52 *)
  u_pitch : Q;             (* random.uniform(-2, 2)         line 53 *)
  u_yaw : Q;               (* random.uniform(-0.5, 0.5)     line 54 *)
  u_altitude : Q;          (* random.uniform(-1, 1)         line 57 *)
  u_change : Q;            (* random.random()               line 65 *)
  u_choice : Q             (* random.random() in choices    line 67 *)
}.

(** The ranges of the draws. *)
Definition in_range (d : draws) : Prop :=
  -0.01 <= u_battery d <= 0.01 /\
  -0.1 <= u_temperature d <= 0.1 /\
  -2 <= u_roll d <= 2 /\
  -2 <= u_pitch d <= 2 /\
  -0.5 <= u_yaw d <= 0.5 /\
  -1 <= u_altitude d <= 1 /\
  0 <= u_change d < 1 /\
  0 <= u_choice d < 1.

(** [_get_signal_strength]: [mapping.get(status, 0)]. *)
Definition mapping : list (string * Z) :=
  [("Excellent", 95); ("Good", 75); ("Fair", 50); ("Poor", 25);
   ("No Signal", 0)]%Z.

Fixpoint dict_get (m : list (string * Z)) (k : string) (dflt : Z) : Z :=
  match m with
  | [] => dflt
  | (k', v) :: rest => if String.eqb k k' then v else dict_get rest k dflt
  end.

Definition _get_signal_strength (status : string) : Z :=
  dict_get mapping status 0%Z.

Section Generate.

(** [math.sin] and [math.cos]. *)
Variables sin cos : Q -> Q.

(** [generate_data]: the new [self] and the dictionary returned.
    Each [let] is one assignment of the source; a field assigned
    twice is shadowed. *)
Definition generate_data (self : DroneDataGenerator) (d : draws)
  : DroneDataGenerator * pyval :=
  let time_offset := time_offset self + UPDATE_INTERVAL in
  (* Battery simulation *)
  let battery_drain_rate := 0.001 in
  let battery_voltage := battery_voltage self - battery_drain_rate in
  let battery_voltage := battery_voltage + u_battery d in
  let battery_voltage := py_max 8.0 (py_min 12.0 battery_voltage) in
  (* Temperature simulation *)
  let temperature := temperature self + u_temperature d in
  (* Movement simulation *)
  let movement_factor := 2 * sin (time_offset / 10) in
  (* IMU data simulation *)
  let roll := 15 * sin (time_offset / 5) + u_roll d in
  let pitch := 10 * cos (time_offset / 7) + u_pitch d in
  let yaw := py_mod (yaw self + 1 + u_yaw d) 360 in
  (* Altitude simulation *)
  let altitude := 100 + 10 * sin (time_offset / 15) + u_altitude d in
  (* GPS simulation *)
  let circle_radius := 0.0001 in
  let latitude := latitude self + circle_radius * sin (time_offset / 20) in
  let longitude :=
    longitude self + circle_radius * cos (time_offset / 20) in
  (* Connection health *)
  let connection_health :=
    if ltb (u_change d) 0.01 then
      let weights := [0.5; 0.3; 0.1; 0.07; 0.03] in
      choices (connection_states self) weights (u_choice d)
    else connection_health self in
  ({| battery_voltage := battery_voltage;
      temperature := temperature;
      altitude := altitude;
      latitude := latitude;
      longitude := longitude;
      roll := roll;
      pitch := pitch;
      yaw := yaw;
      connection_states := connection_states self;
      connection_health := connection_health;
      time_offset := time_offset |},
   PDict
     [("timestamp", PStr (now_isoformat d));
      ("battery",
        PDict
          [("voltage", PFloat (py_round battery_voltage 2));
           ("percentage",
             PFloat (py_round ((battery_voltage - 8.0) / 4.0 * 100) 1))]);
      ("sensors",
        PDict
          [("temperature", PFloat (py_round temperature 1));
           ("altitude", PFloat (py_round altitude 1))]);
      ("imu",
        PDict
          [("roll", PFloat (py_round roll 2));
           ("pitch", PFloat (py_round pitch 2));
           ("yaw", PFloat (py_round yaw 2))]);
      ("gps",
        PDict
          [("latitude", PFloat (py_round latitude 6));
           ("longitude", PFloat (py_round longitude 6));
           ("altitude", PFloat (py_round altitude 1))]);
      ("connection",
        PDict
          [("status", PStr connection_health);
           ("signal_strength",
             PInt (_get_signal_strength connection_health))])]).

(** The loop of [transmit_data] seen from the generator: one call
    per element of [ds]; the list pairs the state reached after each
    call with the sample that call returned. *)
Fixpoint ticks (self : DroneDataGenerator) (ds : list draws)
  : list (DroneDataGenerator * pyval) :=
  match ds with
  | [] => []
  | d :: rest =>
      let r := generate_data self d in
      r :: ticks (fst r) rest
  end.

End Generate.

End Transmitter.

(* ------------------------------------------------------------------ *)
(** ** dashboard.py: the pose transform of [update_orientation_display] *)
(* ------------------------------------------------------------------ *)

Module Pose.

Local Open Scope R_scope.

Definition vec : Type := (R * R * R)%type.
Definition mat : Type := (vec * vec * vec)%type.

Definition dot (u v : vec) : R :=
  let '(u0, u1, u2) := u in
  let '(v0, v1, v2) := v in
  u0 * v0 + u1 * v1 + u2 * v2.

Definition col (m : mat) (j : nat) : vec :=
  let '(r0, r1, r2) := m in
  let pick (r : vec) := let '(x, y, z) := r in
                        match j with O => x | 1%nat => y | _ => z end in
  (pick r0, pick r1, pick r2).

(** [m.T]. *)
Definition transpose (m : mat) : mat := (col m 0, col m 1, col m 2).

(** [a.dot(b)] for two 3x3 arrays. *)
Definition mat_dot (a b : mat) : mat :=
  let '(a0, a1, a2) := a in
  let row (r : vec) := (dot r (col b 0), dot r (col b 1), dot r (col b 2)) in
  (row a0, row a1, row a2).

(** [np.dot(points, m)] for a k-by-3 array of points: every row is
    multiplied by [m] from the right. *)
Definition points_dot (points : list vec) (m : mat) : list vec :=
  map (fun p => (dot p (col m 0), dot p (col m 1), dot p (col m 2))) points.

(** The nested [rotation_matrix(axis, theta)]. *)
Definition rotation_matrix (axis : vec) (theta : R) : mat :=
  let n := sqrt (dot axis axis) in
  let '(x, y, z) := axis in
  let axis := (x / n, y / n, z / n) in
  let a := cos (theta / 2) in
  let '(x, y, z) := axis in
  let '(b, c, d) :=
    (- x * sin (theta / 2), - y * sin (theta / 2), - z * sin (theta / 2)) in
  let '(aa, bb, cc, dd) := (a * a, b * b, c * c, d * d) in
  let '(bc, ad, ac, ab, bd, cd) :=
    (b * c, a * d, a * c, a * b, b * d, c * d) in
  ((aa + bb - cc - dd, 2 * (bc + ad), 2 * (bd - ac)),
   (2 * (bc - ad), aa + cc - bb - dd, 2 * (cd + ab)),
   (2 * (bd + ac), 2 * (cd - ab), aa + dd - bb - cc)).

(** Degrees to radians, then the three factors and their product. *)
Definition radians (deg : R) : R := deg * PI / 180.

Definition R_z (yaw : R) : mat := rotation_matrix (0, 0, 0.75) yaw.
Definition R_y (pitch : R) : mat := rotation_matrix (0, 0.75, 0) pitch.
Definition R_x (roll : R) : mat := rotation_matrix (0.75, 0, 0) roll.

Definition rotation (roll pitch yaw : R) : mat :=
  let roll := radians roll in
  let pitch := radians pitch in
  let yaw := radians yaw in
  mat_dot (mat_dot (R_z yaw) (R_y pitch)) (R_x roll).

(** The drone model. *)
Definition drone_size : R := 0.8.
Definition body_size : R := drone_size * 0.3.
Definition arm_length : R := drone_size.
Definition thickness : R := 0.05.

Definition body_points : list vec :=
  [ (body_size, body_size, 0.05);
    (body_size, - body_size, 0.05);
    (- body_size, - body_size, 0.05);
    (- body_size, body_size, 0.05);
    (body_size, body_size, -0.05);
    (body_size, - body_size, -0.05);
    (- body_size, - body_size, -0.05);
    (- body_size, body_size, -0.05) ].

Definition arm_front : list vec :=
  [ (0, 0, thickness); (0, 0, - thickness);
    (0, arm_length, thickness); (0, arm_length, - thickness) ].
Definition arm_back : list vec :=
  [ (0, 0, thickness); (0, 0, - thickness);
    (0, - arm_length, thickness); (0, - arm_length, - thickness) ].
Definition arm_right : list vec :=
  [ (0, 0, thickness); (0, 0, - thickness);
    (arm_length, 0, thickness); (arm_length, 0, - thickness) ].
Definition arm_left : list vec :=
  [ (0, 0, thickness); (0, 0, - thickness);
    (- arm_length, 0, thickness); (- arm_length, 0, - thickness) ].

Definition ring_radius : R := arm_length * 1.2.
Definition ring_segments : nat := 36.
Definition ring_points : list vec :=
  map (fun i : nat =>
         let angle := 2 * PI * INR i / INR ring_segments in
         (ring_radius * cos angle, ring_radius * sin angle, 0))
      (seq 0 (ring_segments + 1)).

(** The geometry handed to the plotting calls. *)
Record geometry : Type := mkGeometry {
  body_rotated : list vec;
  arm_front_rotated : list vec;
  arm_back_rotated : list vec;
  arm_right_rotated : list vec;
  arm_left_rotated : list vec;
  ring_rotated : list vec
}.

Definition rotated_geometry (roll pitch yaw : R) : geometry :=
  let R := rotation roll pitch yaw in
  {| body_rotated := points_dot body_points (transpose R);
     arm_front_rotated := points_dot arm_front (transpose R);
     arm_back_rotated := points_dot arm_back (transpose R);
     arm_right_rotated := points_dot arm_right (transpose R);
     arm_left_rotated := points_dot arm_left (transpose R);
     ring_rotated := ring_points |}.

(** The textbook rotations about the three axes, counterclockwise,
    acting on column vectors; used to state what [rotation_matrix]
    computes. *)
Definition std_Rx (t : R) : mat :=
  ((1, 0, 0), (0, cos t, - sin t), (0, sin t, cos t)).
Definition std_Ry (t : R) : mat :=
  ((cos t, 0, sin t), (0, 1, 0), (- sin t, 0, cos t)).
Definition std_Rz (t : R) : mat :=
  ((cos t, - sin t, 0), (sin t, cos t, 0), (0, 0, 1)).

Definition identity : mat := ((1, 0, 0), (0, 1, 0), (0, 0, 1)).

(** [m] applied to the column vector [v]. *)
Definition apply (m : mat) (v : vec) : vec :=
  let '(r0, r1, r2) := m in (dot r0 v, dot r1 v, dot r2 v).

End Pose.

(* ------------------------------------------------------------------ *)
(** ** dashboard.py: [websocket_client]                                 *)
(* ------------------------------------------------------------------ *)

Module Client.

Definition WS_SERVER : string := "ws://localhost:8765".

(** What the coroutine does between two [await]s. *)
Inductive action : Type :=
| Connect (url : string)       (* websockets.connect(WS_SERVER)      *)
| PrintConnected (url : string)
| Recv                         (* websocket.recv()                   *)
| Put (v : pyval)              (* data_queue.put(data_json)          *)
| PrintError (e : exn)
| Sleep (seconds : Z).         (* asyncio.sleep(5)                   *)

(** How an [await] ends: it returns (with the frame received, for
    [recv]) or it raises. *)
Inductive response : Type :=
| Returns (payload : string)
| Raises (e : exn).

(** Where the coroutine is suspended. *)
Inductive pc : Type :=
| Connecting                   (* in websockets.connect              *)
| Receiving                    (* in websocket.recv                  *)
| Sleeping                     (* in asyncio.sleep, inside except    *)
| Crashed (e : exn).           (* an exception left the coroutine    *)

Record state : Type := mkState {
  at_pc : pc;
  data_queue : list pyval
}.

Section Loop.

(** [json.loads]. *)
Variable loads : string -> result pyval.

(** An exception raised inside the [try]: [except Exception]. *)
Definition handler (e : exn) (q : list pyval) : state * list action :=
  if is_Exception e
  then (mkState Sleeping q, [PrintError e; Sleep 5])
  else (mkState (Crashed e) q, []).

Definition start : state * list action :=
  (mkState Connecting [], [Connect WS_SERVER]).

Definition step (s : state) (r : response) : state * list action :=
  let q := data_queue s in
  match at_pc s, r with
  | Connecting, Returns _ =>
      (mkState Receiving q, [PrintConnected WS_SERVER; Recv])
  | Connecting, Raises e => handler e q
  | Receiving, Returns data =>
      match loads data with
      | inr data_json => (mkState Receiving (q ++ [data_json]),
                          [Put data_json; Recv])
      | inl e => handler e q
      end
  | Receiving, Raises e => handler e q
  | Sleeping, Returns _ => (mkState Connecting q, [Connect WS_SERVER])
  | Sleeping, Raises e => (mkState (Crashed e) q, [])
  | Crashed e, _ => (s, [])
  end.

(** The coroutine driven by a finite prefix of the environment's
    answers; the actions are logged in order. *)
Fixpoint run (s : state) (rs : list response) : state * list action :=
  match rs with
  | [] => (s, [])
  | r :: rest =>
      let '(s1, a1) := step s r in
      let '(s2, a2) := run s1 rest in
      (s2, (a1 ++ a2)%list)
  end.

(** The answers that are failures of the channel: an [Exception]
    raised by [connect] or [recv], or a frame [json.loads] rejects. *)
Definition channel_failure (s : state) (r : response) : bool :=
  match at_pc s, r with
  | (Connecting | Receiving), Raises e => is_Exception e
  | Receiving, Returns data =>
      match loads data with
      | inl e => is_Exception e
      | inr _ => false
      end
  | _, _ => false
  end.

(** The answers that are not failures of the channel and do end the
    coroutine: an exception that is not an [Exception] (an interrupt
    or a cancellation) out of [connect] or [recv], or any exception out
    of the [asyncio.sleep] of the handler itself. *)
Definition interrupted (s : state) (r : response) : bool :=
  match at_pc s, r with
  | (Connecting | Receiving), Raises e => negb (is_Exception e)
  | Receiving, Returns data =>
      match loads data with
      | inl e => negb (is_Exception e)
      | inr _ => false
      end
  | Sleeping, Raises _ => true
  | _, _ => false
  end.

Fixpoint uninterrupted (s : state) (rs : list response) : bool :=
  match rs with
  | [] => true
  | r :: rest =>
      negb (interrupted s r) && uninterrupted (fst (step s r)) rest
  end.

Fixpoint failures (s : state) (rs : list response) : nat :=
  match rs with
  | [] => 0
  | r :: rest =>
      (if channel_failure s r then 1 else 0)
      + failures (fst (step s r)) rest
  end.

Definition is_crashed (s : state) : bool :=
  match at_pc s with Crashed _ => true | _ => false end.

Definition sleeps (log : list action) : list Z :=
  flat_map (fun a => match a with Sleep n => [n] | _ => [] end) log.

End Loop.

(** A stand-in for [json.loads], for the examples: it accepts the
    text [null] and rejects every other text with the [ValueError]
    that [JSONDecodeError] is. *)
Definition loads_null (s : string) : result pyval :=
  if String.eqb s "null" then inr PNone else inl ValueError.

End Client.

(* ------------------------------------------------------------------ *)
(** ** dashboard.py: the callbacks that read the store                  *)
(* ------------------------------------------------------------------ *)

Module Views.

Import Dashboard.

(** The callbacks can also raise [IndexError], on [l[-1]]. *)
Inductive error : Type :=
| Raised (e : exn)
| IndexError.

(** [bool(v)]. *)
Definition truthy (v : pyval) : bool :=
  match v with
  | PNone => false
  | PBool b => b
  | PInt z => negb (z =? 0)%Z
  | PFloat q => negb (Qeq_bool q 0)
  | PStr s => negb (String.eqb s "")
  | PList l => match l with [] => false | _ :: _ => true end
  | PDict kv => match kv with [] => false | _ :: _ => true end
  end.

(** [l[-1]]. *)
Definition last_item {A : Type} (l : list A) : error + A :=
  match rev l with
  | [] => inl IndexError
  | x :: _ => inr x
  end.

(** [v > k] for an integer literal [k]: numbers compare, [bool] counts
    as 0 or 1, anything else is a [TypeError]. *)
Definition gt (v : pyval) (k : Z) : result bool :=
  match v with
  | PInt z => inr (k <? z)%Z
  | PFloat q => inr (Transmitter.ltb (inject_Z k) q)
  | PBool b => inr (k <? (if b then 1 else 0))%Z
  | _ => inl TypeError
  end.

Fixpoint lookup (k : string) (m : list (string * string)) : option string :=
  match m with
  | [] => None
  | (k', v) :: rest => if String.eqb k k' then Some v else lookup k rest
  end.

(** [m.get(key, dflt)] for a dict with string keys: a list or a dict
    cannot be hashed; a key that is not a string is not there. *)
Definition dict_get (m : list (string * string)) (key : pyval)
    (dflt : string) : result string :=
  match key with
  | PStr s => inr (match lookup s m with Some v => v | None => dflt end)
  | PList _ | PDict _ => inl TypeError
  | _ => inr dflt
  end.

(** [v in l] for a list of string literals. *)
Definition is_in (v : pyval) (l : list string) : bool :=
  match v with
  | PStr s => existsb (String.eqb s) l
  | _ => false
  end.

(** A style dictionary, and one scatter trace (name, x, y). *)
Definition style : Type := list (string * string).

Record trace (X Y : Type) : Type := mkTrace {
  name : string;
  xs : list X;
  ys : list Y
}.

(** What [update_gps_map] hands to the map: the traces (latitudes as
    [xs], longitudes as [ys]) and the centre. *)
Record gps_figure : Type := mkGps {
  gps_traces : list (trace pyval pyval);
  center_lat : pyval;
  center_lon : pyval
}.

Section Callbacks.

Variable datetime : Type.
Variable fromisoformat : string -> option datetime.

(** [ts.strftime('%H:%M:%S')] and the text an f-string puts for a
    value; both belong to the Python library. *)
Variable strftime : datetime -> string.
Variable format : pyval -> string.

(** The global [data_store] the callbacks read. *)
Variable data_store : DataStore datetime.

(** [update_connection_status]. *)
Definition update_connection_status (n : Z) : result (pyval * style) :=
  match latest_data data_store with
  | None => inr (PStr "No Data", [("backgroundColor", "#555555")])
  | Some latest =>
      match getitem2 latest "connection" "status" with
      | inl e => inl e
      | inr status =>
          let colors :=
            [("Excellent", "#4CAF50"); ("Good", "#8BC34A");
             ("Fair", "#FFC107"); ("Poor", "#FF9800");
             ("No Signal", "#F44336")] in
          match dict_get colors status "#555555" with
          | inl e => inl e
          | inr background =>
              inr (status,
                   [("backgroundColor", background);
                    ("color",
                      if is_in status ["Excellent"; "Good"; "Fair"]
                      then "#000000" else "#FFFFFF")])
          end
      end
  end.

(** [update_battery_indicator]. *)
Definition update_battery_indicator (n : Z) : result (string * style) :=
  match latest_data data_store with
  | None => inr ("No Data", [("backgroundColor", "#555555")])
  | Some latest =>
      match getitem2 latest "battery" "voltage" with
      | inl e => inl e
      | inr voltage =>
      match getitem2 latest "battery" "percentage" with
      | inl e => inl e
      | inr percentage =>
          let color : result string :=
            match gt percentage 75 with
            | inl e => inl e
            | inr true => inr "#4CAF50"
            | inr false =>
            match gt percentage 50 with
            | inl e => inl e
            | inr true => inr "#8BC34A"
            | inr false =>
            match gt percentage 25 with
            | inl e => inl e
            | inr true => inr "#FFC107"
            | inr false =>
            match gt percentage 10 with
            | inl e => inl e
            | inr true => inr "#FF9800"
            | inr false => inr "#F44336"
            end end end end in
          match color with
          | inl e => inl e
          | inr color =>
              match gt percentage 25 with
              | inl e => inl e
              | inr dark =>
                  inr (format voltage ++ "V (" ++ format percentage ++ "%)",
                       [("backgroundColor", color);
                        ("color", if dark then "#000000" else "#FFFFFF")])
              end
          end
      end end
  end%string.

(** [update_gps_map]: the two traces, when there is something to plot,
    then the centre of the layout. *)
Definition update_gps_map (n : Z) : error + gps_figure :=
  let traces : error + list (trace pyval pyval) :=
    match latest_data data_store with
    | Some _ =>
        if (0 <? Z.of_nat (List.length (latitude data_store)))%Z then
          match last_item (latitude data_store) with
          | inl e => inl e
          | inr lat =>
              match last_item (longitude data_store) with
              | inl e => inl e
              | inr lon =>
                  inr [mkTrace "Path" (latitude data_store)
                         (longitude data_store);
                       mkTrace "Current Position" [lat] [lon]]
              end
          end
        else inr []
    | None => inr []
    end in
  match traces with
  | inl e => inl e
  | inr traces =>
      let has_data :=
        match latest_data data_store with
        | Some latest => truthy latest
        | None => false
        end in
      match
        (if has_data then last_item (latitude data_store)
         else inr (PFloat 11.064754))
      with
      | inl e => inl e
      | inr lat =>
          match
            (if has_data then last_item (longitude data_store)
             else inr (PFloat 77.093565))
          with
          | inl e => inl e
          | inr lon => inr (mkGps traces lat lon)
          end
      end
  end.

(** [update_imu_chart]: the traces of the figure. *)
Definition update_imu_chart (n : Z) : list (trace string pyval) :=
  match latest_data data_store with
  | Some _ =>
      if (0 <? Z.of_nat (List.length (timestamps data_store)))%Z then
        let time_strings := map strftime (timestamps data_store) in
        [mkTrace "Roll" time_strings (roll data_store);
         mkTrace "Pitch" time_strings (pitch data_store);
         mkTrace "Yaw" time_strings (yaw data_store)]
      else []
  | None => []
  end.

(** [update_alt_temp_chart]: the traces of the figure. *)
Definition update_alt_temp_chart (n : Z) : list (trace string pyval) :=
  match latest_data data_store with
  | Some _ =>
      if (0 <? Z.of_nat (List.length (timestamps data_store)))%Z then
        let time_strings := map strftime (timestamps data_store) in
        [mkTrace "Altitude (m)" time_strings (altitude data_store);
         mkTrace "Temperature (°C)" time_strings (temperature data_store)]
      else []
  | None => []
  end.

(** [update_telemetry_data]: the rows as (label, text), or the single
    text shown before the first message. *)
Definition update_telemetry_data (n : Z)
  : result (string + list (string * string)) :=
  match latest_data data_store with
  | None => inr (inl "No data received yet.")
  | Some data =>
      let read := getitem2 data in
      match read "battery" "voltage" with inl e => inl e | inr voltage =>
      match read "battery" "percentage" with inl e => inl e | inr percentage =>
      match read "sensors" "temperature" with inl e => inl e | inr temp =>
      match read "sensors" "altitude" with inl e => inl e | inr alt =>
      match read "imu" "roll" with inl e => inl e | inr roll =>
      match read "imu" "pitch" with inl e => inl e | inr pitch =>
      match read "imu" "yaw" with inl e => inl e | inr yaw =>
      match read "gps" "latitude" with inl e => inl e | inr lat =>
      match read "gps" "longitude" with inl e => inl e | inr lon =>
      match read "connection" "status" with inl e => inl e | inr status =>
      match read "connection" "signal_strength" with
      | inl e => inl e
      | inr strength =>
      match getitem data "timestamp" with inl e => inl e | inr ts =>
      match fromisoformat_py fromisoformat ts with
      | inl e => inl e
      | inr t =>
          inr (inr
            [("Battery: ",
               format voltage ++ "V (" ++ format percentage ++ "%)");
             ("Temperature: ", format temp ++ "°C");
             ("Altitude: ", format alt ++ "m");
             ("Roll: ", format roll ++ "°");
             ("Pitch: ", format pitch ++ "°");
             ("Yaw: ", format yaw ++ "°");
             ("GPS: ", "Lat: " ++ format lat ++ ", Lon: " ++ format lon);
             ("Connection: ",
               format status ++ " (" ++ format strength ++ "%)");
             ("Last Updated: ", strftime t)])
      end end end end end end end end end end end end end
  end%string.

End Callbacks.

End Views.

(* ------------------------------------------------------------------ *)
(** ** transmitter.py: [transmit_data]                                  *)
(* ------------------------------------------------------------------ *)

Module Server.

Import Transmitter.

(** What the handler does between two [await]s. *)
Inductive action : Type :=
| PrintConnected
| Send (frame : string)        (* websocket.send(json.dumps(data))   *)
| Sleep (seconds : Q)          (* asyncio.sleep(UPDATE_INTERVAL)     *)
| PrintDisconnected.

(** Where the handler is suspended, or how it ended. *)
Inductive pc : Type :=
| Sending                      (* in websocket.send                  *)
| Sleeping                     (* in asyncio.sleep                   *)
| Returned                     (* after except ConnectionClosed      *)
| Failed (e : exn).            (* an exception left the handler      *)

Record state : Type := mkState {
  drone : DroneDataGenerator;
  calls : nat;                 (* calls of generate_data so far      *)
  at_pc : pc
}.

Section Handler.

Variables sin cos : Q -> Q.

(** [json.dumps]. *)
Variable dumps : pyval -> string.

(** What the [k]-th call of [generate_data] on this connection reads
    from the clock and the random module. *)
Variable draws_at : nat -> draws.

(** One turn of the loop up to its first [await]. *)
Definition send_next (s : state) : state * list action :=
  let '(g, data) := generate_data sin cos (drone s) (draws_at (calls s)) in
  (mkState g (S (calls s)) Sending, [Send (dumps data)]).

(** The handler up to its first [await]: a new generator per
    connection. *)
Definition start : state * list action :=
  let '(s, a) := send_next (mkState init 0 Sending) in
  (s, PrintConnected :: a).

(** An exception raised inside the [try]:
    [except websockets.exceptions.ConnectionClosed]. *)
Definition handler (s : state) (e : exn) : state * list action :=
  match e with
  | ConnectionClosed =>
      (mkState (drone s) (calls s) Returned, [PrintDisconnected])
  | _ => (mkState (drone s) (calls s) (Failed e), [])
  end.

Definition step (s : state) (r : Client.response) : state * list action :=
  match at_pc s, r with
  | Sending, Client.Returns _ =>
      (mkState (drone s) (calls s) Sleeping, [Sleep UPDATE_INTERVAL])
  | Sleeping, Client.Returns _ => send_next s
  | (Sending | Sleeping), Client.Raises e => handler s e
  | (Returned | Failed _), _ => (s, [])
  end.

Fixpoint run (s : state) (rs : list Client.response)
  : state * list action :=
  match rs with
  | [] => (s, [])
  | r :: rest =>
      let '(s1, a1) := step s r in
      let '(s2, a2) := run s1 rest in
      (s2, a1 ++ a2)
  end.

(** The connection from its start. *)
Definition connection (rs : list Client.response) : state * list action :=
  let '(s0, a0) := start in
  let '(s, a) := run s0 rs in
  (s, a0 ++ a).

End Handler.

Definition frames (log : list action) : list string :=
  flat_map (fun a => match a with Send f => [f] | _ => [] end) log.

Definition pauses (log : list action) : list Q :=
  flat_map (fun a => match a with Sleep t => [t] | _ => [] end) log.

End Server.

(* ------------------------------------------------------------------ *)
(** ** Vocabulary of the statements about the generator                 *)
(* ------------------------------------------------------------------ *)

Module GeneratorSpec.

Import Transmitter.
Local Open Scope Q_scope.

(** The clamp the specification writes for the percentage: [x] brought
    into [[lo, hi]].  The source has no such call; it relies on the
    voltage having been clamped. *)
Definition clamp (x lo hi : Q) : Q :=
  if ltb x lo then lo else if ltb hi x then hi else x.

(** What [math.sin] and [math.cos] are known to satisfy. *)
Definition bounded (f : Q -> Q) : Prop := forall x : Q, -1 <= f x <= 1.

(** The connection status is one of the listed states. *)
Definition known_health (g : DroneDataGenerator) : Prop :=
  In (connection_health g) (connection_states g).

(** The state after the calls of [generate_data] on [ds], in order. *)
Definition after (sin cos : Q -> Q) (g : DroneDataGenerator)
    (ds : list draws) : DroneDataGenerator :=
  fold_left (fun g d => fst (generate_data sin cos g d)) ds g.

(** A stand-in for [math.sin] and [math.cos], for the examples. *)
Definition flat (x : Q) : Q := 0.

(** Draws whose noise is zero and whose status draw changes nothing. *)
Definition quiet (now : string) : draws :=
  mkDraws now 0 0 0 0 0 0 0.5 0.

End GeneratorSpec.

(* ------------------------------------------------------------------ *)
(** ** Vocabulary of the statements about the store                     *)
(* ------------------------------------------------------------------ *)

Module StoreSpec.

Import Dashboard.

(** The last [n] elements of a list (all of it when it is shorter). *)
Definition lastn {A : Type} (n : nat) (l : list A) : list A :=
  skipn (List.length l - n) l.

Section Vocabulary.

Variable datetime : Type.
Variable fromisoformat : string -> option datetime.

Local Abbreviation DataStore := (DataStore datetime).

(** The ten values [add_data] reads from a message, in the order in
    which it reads them. *)
Record fields : Type := mkFields {
  f_timestamp : datetime;
  f_voltage : pyval;
  f_temperature : pyval;
  f_altitude : pyval;
  f_roll : pyval;
  f_pitch : pyval;
  f_yaw : pyval;
  f_latitude : pyval;
  f_longitude : pyval;
  f_signal : pyval
}.

Definition rbind {A B} (r : result A) (k : A -> result B) : result B :=
  match r with inl e => inl e | inr a => k a end.

Definition parse (data : pyval) : result fields :=
  rbind (getitem data "timestamp") (fun ts =>
  rbind (fromisoformat_py fromisoformat ts) (fun t =>
  rbind (getitem2 data "battery" "voltage") (fun v1 =>
  rbind (getitem2 data "sensors" "temperature") (fun v2 =>
  rbind (getitem2 data "sensors" "altitude") (fun v3 =>
  rbind (getitem2 data "imu" "roll") (fun v4 =>
  rbind (getitem2 data "imu" "pitch") (fun v5 =>
  rbind (getitem2 data "imu" "yaw") (fun v6 =>
  rbind (getitem2 data "gps" "latitude") (fun v7 =>
  rbind (getitem2 data "gps" "longitude") (fun v8 =>
  rbind (getitem2 data "connection" "signal_strength") (fun v9 =>
  inr (mkFields t v1 v2 v3 v4 v5 v6 v7 v8 v9)))))))))))).

(** A message is well formed when every read of [add_data]
    succeeds on it. *)
Definition well_formed (data : pyval) : bool :=
  match parse data with inr _ => true | inl _ => false end.

(** [msgs] are well formed and [fs] are the values read from them. *)
Definition parsed (msgs : list pyval) (fs : list fields) : Prop :=
  Forall2 (fun m f => parse m = inr f) msgs fs.

(** All ten series have the length of [timestamps]. *)
Definition equal_length (s : DataStore) : Prop :=
  let n := List.length (timestamps s) in
  List.length (battery_voltage s) = n /\
  List.length (temperature s) = n /\
  List.length (altitude s) = n /\
  List.length (roll s) = n /\
  List.length (pitch s) = n /\
  List.length (yaw s) = n /\
  List.length (latitude s) = n /\
  List.length (longitude s) = n /\
  List.length (connection_strength s) = n.

(** All ten series have length [n]. *)
Definition all_length (s : DataStore) (n : nat) : Prop :=
  List.length (timestamps s) = n /\
  List.length (battery_voltage s) = n /\
  List.length (temperature s) = n /\
  List.length (altitude s) = n /\
  List.length (roll s) = n /\
  List.length (pitch s) = n /\
  List.length (yaw s) = n /\
  List.length (latitude s) = n /\
  List.length (longitude s) = n /\
  List.length (connection_strength s) = n.

(** The oldest entry of every series is the matching value of [f]. *)
Definition oldest_is (s : DataStore) (f : fields) : Prop :=
  hd_error (timestamps s) = Some (f_timestamp f) /\
  hd_error (battery_voltage s) = Some (f_voltage f) /\
  hd_error (temperature s) = Some (f_temperature f) /\
  hd_error (altitude s) = Some (f_altitude f) /\
  hd_error (roll s) = Some (f_roll f) /\
  hd_error (pitch s) = Some (f_pitch f) /\
  hd_error (yaw s) = Some (f_yaw f) /\
  hd_error (latitude s) = Some (f_latitude f) /\
  hd_error (longitude s) = Some (f_longitude f) /\
  hd_error (connection_strength s) = Some (f_signal f).

(** Every series holds the last [n] of the values read so far. *)
Definition window (n : nat) (fs : list fields) (s : DataStore) : Prop :=
  timestamps s = lastn n (map f_timestamp fs) /\
  battery_voltage s = lastn n (map f_voltage fs) /\
  temperature s = lastn n (map f_temperature fs) /\
  altitude s = lastn n (map f_altitude fs) /\
  roll s = lastn n (map f_roll fs) /\
  pitch s = lastn n (map f_pitch fs) /\
  yaw s = lastn n (map f_yaw fs) /\
  latitude s = lastn n (map f_latitude fs) /\
  longitude s = lastn n (map f_longitude fs) /\
  connection_strength s = lastn n (map f_signal fs).

(** The appends of [add_data] for a message whose reads gave [f]. *)
Definition push (f : fields) (s : DataStore) : DataStore :=
  mkStore (max_points s)
    (timestamps s ++ [f_timestamp f])
    (battery_voltage s ++ [f_voltage f])
    (temperature s ++ [f_temperature f])
    (altitude s ++ [f_altitude f])
    (roll s ++ [f_roll f])
    (pitch s ++ [f_pitch f])
    (yaw s ++ [f_yaw f])
    (latitude s ++ [f_latitude f])
    (longitude s ++ [f_longitude f])
    (connection_strength s ++ [f_signal f])
    (latest_data s).

(** The trim of [add_data]. *)
Definition trim (s : DataStore) : DataStore :=
  if (Z.of_nat (List.length (timestamps s)) >? max_points s)%Z then
    let m := (- max_points s)%Z in
    mkStore (max_points s)
      (slice_from (timestamps s) m)
      (slice_from (battery_voltage s) m)
      (slice_from (temperature s) m)
      (slice_from (altitude s) m)
      (slice_from (roll s) m)
      (slice_from (pitch s) m)
      (slice_from (yaw s) m)
      (slice_from (latitude s) m)
      (slice_from (longitude s) m)
      (slice_from (connection_strength s) m)
      (latest_data s)
  else s.

(** One call of [add_data] per message, in order, as a caller that
    does not catch would make them. *)
Fixpoint add_all (msgs : list pyval) (s : DataStore)
  : DataStore * result unit :=
  match msgs with
  | [] => (s, inr tt)
  | m :: rest =>
      match add_data fromisoformat m s with
      | (s', inl e) => (s', inl e)
      | (s', inr _) => add_all rest s'
      end
  end.

(** The store [DataStore(max_points)] starts from. *)
Definition empty (max_points : Z) : DataStore :=
  mkStore max_points [] [] [] [] [] [] [] [] [] [] None.

(** The read [data[k1][k2]] succeeds. *)
Definition reads (data : pyval) (k1 k2 : string) : Prop :=
  exists v : pyval, getitem2 data k1 k2 = inr v.

(** [datetime.fromisoformat(data['timestamp'])] succeeds. *)
Definition timestamp_parses (data : pyval) : Prop :=
  exists (ts : pyval) (t : datetime),
    getitem data "timestamp" = inr ts /\
    fromisoformat_py fromisoformat ts = inr t.

(** [l] is [l0], or [l0] with one more element at the end. *)
Definition grew_by_at_most_one {A} (l0 l : list A) : Prop :=
  l = l0 \/ exists x, l = l0 ++ [x].

End Vocabulary.

(** A stand-in for the library parser, for the examples: it accepts
    [YYYY-MM-DDTHH:MM:SS] followed by anything and keeps the text. *)
Definition is_digit (c : Ascii.ascii) : bool :=
  let n := Ascii.nat_of_ascii c in (48 <=? n)%nat && (n <=? 57)%nat.

Fixpoint matches (pattern : list (option Ascii.ascii)) (s : string) : bool :=
  match pattern, s with
  | [], _ => true
  | _ :: _, EmptyString => false
  | None :: p, String c s' => is_digit c && matches p s'
  | Some c0 :: p, String c s' => Ascii.eqb c0 c && matches p s'
  end.

Definition iso_pattern : list (option Ascii.ascii) :=
  let d := @None Ascii.ascii in
  let c (x : string) :=
    match x with String a _ => Some a | EmptyString => None end in
  [d; d; d; d; c "-"; d; d; c "-"; d; d; c "T";
   d; d; c ":"; d; d; c ":"; d; d].

Definition iso_text (s : string) : option string :=
  if matches iso_pattern s then Some s else None.

(** A message with every field, numbered [i]. *)
Definition message (i : Z) : pyval :=
  PDict
    [("timestamp", PStr "2025-01-01T00:00:00");
     ("battery", PDict [("voltage", PInt i); ("percentage", PInt 50)]);
     ("sensors", PDict [("temperature", PInt i); ("altitude", PInt i)]);
     ("imu", PDict [("roll", PInt i); ("pitch", PInt i); ("yaw", PInt i)]);
     ("gps", PDict [("latitude", PInt i); ("longitude", PInt i);
                    ("altitude", PInt i)]);
     ("connection", PDict [("status", PStr "Good");
                           ("signal_strength", PInt 75)])].

(** What [add_data] reads from [message i] with [iso_text]. *)
Definition message_fields (i : Z) : fields string :=
  mkFields "2025-01-01T00:00:00" (PInt i) (PInt i) (PInt i) (PInt i)
    (PInt i) (PInt i) (PInt i) (PInt i) (PInt 75).

(** The same message without its ["imu"] entry. *)
Definition message_without_imu (i : Z) : pyval :=
  PDict
    [("timestamp", PStr "2025-01-01T00:00:00");
     ("battery", PDict [("voltage", PInt i); ("percentage", PInt 50)]);
     ("sensors", PDict [("temperature", PInt i); ("altitude", PInt i)]);
     ("gps", PDict [("latitude", PInt i); ("longitude", PInt i);
                    ("altitude", PInt i)]);
     ("connection", PDict [("status", PStr "Good");
                           ("signal_strength", PInt 75)])].

End StoreSpec.

(* ------------------------------------------------------------------ *)
(** * Properties of the store                                           *)
(* ------------------------------------------------------------------ *)

Section SliceFacts.

Context {A : Type}.

Lemma slice_from_zero (l : list A) : slice_from l 0 = l.
Proof.
  unfold slice_from. simpl.
  replace (Z.to_nat (Z.min 0 (Z.of_nat (List.length l)))) with 0%nat by lia.
  reflexivity.
Qed.

Lemma slice_from_length (l : list A) (z : Z) :
  List.length (slice_from l z) =
  (List.length l -
   Z.to_nat (if (z <? 0)%Z
             then Z.max (Z.of_nat (List.length l) + z) 0
             else Z.min z (Z.of_nat (List.length l))))%nat.
Proof. unfold slice_from. now rewrite length_skipn. Qed.

Lemma slice_from_length_eq {B : Type} (l : list A) (l' : list B) (z : Z) :
  List.length l = List.length l' ->
  List.length (slice_from l z) = List.length (slice_from l' z).
Proof. intros E. unfold slice_from. rewrite !length_skipn, E. reflexivity. Qed.

Lemma lastn_length (n : nat) (l : list A) :
  List.length (StoreSpec.lastn n l) = Nat.min n (List.length l).
Proof. unfold StoreSpec.lastn. rewrite length_skipn. lia. Qed.

(** Appending one element to a window and slicing off all but the
    last [n] gives the window of the longer list. *)
Lemma lastn_snoc_trim (n : nat) (l : list A) (x : A) :
  (0 < n)%nat ->
  (n < List.length (StoreSpec.lastn n l ++ [x]))%nat ->
  slice_from (StoreSpec.lastn n l ++ [x]) (- Z.of_nat n) =
  StoreSpec.lastn n (l ++ [x]).
Proof.
  intros Hn Hlen.
  rewrite length_app, lastn_length in Hlen. simpl in Hlen.
  unfold slice_from.
  destruct (- Z.of_nat n <? 0)%Z eqn:E; [|apply Z.ltb_ge in E; lia].
  rewrite length_app, lastn_length. simpl.
  replace (Z.to_nat _) with 1%nat by lia.
  set (w := StoreSpec.lastn n l).
  assert (Hw : w = skipn (List.length l - n) l) by reflexivity.
  unfold StoreSpec.lastn. rewrite length_app. simpl.
  replace (List.length l + 1 - n)%nat with (1 + (List.length l - n))%nat
    by lia.
  rewrite <- skipn_skipn, (skipn_app (List.length l - n)), <- Hw.
  replace (List.length l - n - List.length l)%nat with 0%nat by lia.
  reflexivity.
Qed.

Lemma lastn_snoc_keep (n : nat) (l : list A) (x : A) :
  (List.length (StoreSpec.lastn n l ++ [x]) <= n)%nat ->
  StoreSpec.lastn n l ++ [x] = StoreSpec.lastn n (l ++ [x]).
Proof.
  intros Hlen.
  rewrite length_app, lastn_length in Hlen. simpl in Hlen.
  unfold StoreSpec.lastn. rewrite length_app. simpl.
  replace (List.length l - n)%nat with 0%nat by lia.
  replace (List.length l + 1 - n)%nat with 0%nat by lia.
  reflexivity.
Qed.

Lemma last_cons (a : A) (l : list A) (d : A) :
  last (a :: l) d = last l a.
Proof.
  revert a d. induction l as [|b l IH]; intros a d; [reflexivity|].
  change (last (a :: b :: l) d) with (last (b :: l) d).
  now rewrite !IH.
Qed.

Lemma lastn_hd (n : nat) (l : list A) :
  hd_error (StoreSpec.lastn n l) = nth_error l (List.length l - n).
Proof.
  unfold StoreSpec.lastn.
  generalize (List.length l - n)%nat as k. intros k. revert l.
  induction k as [|k IH]; intros [|a l]; simpl; auto.
Qed.

End SliceFacts.

Section StoreFacts.

Import Dashboard StoreSpec.

Variable datetime : Type.
Variable fromisoformat : string -> option datetime.

Local Abbreviation DataStore := (DataStore datetime).
Local Abbreviation parse := (parse fromisoformat).
Local Abbreviation add_data := (add_data fromisoformat).
Local Abbreviation add_all := (add_all fromisoformat).

(** Run the store monad and the field writes, and nothing else. *)
Ltac run_store :=
  cbv beta iota zeta delta
    [Dashboard.add_data Dashboard.bind Dashboard.eval Dashboard.assign
     Dashboard.self Dashboard.ret
     set_timestamps set_battery_voltage set_temperature set_altitude
     set_roll set_pitch set_yaw set_latitude set_longitude
     set_connection_strength set_latest_data
     max_points timestamps battery_voltage temperature altitude roll pitch
     yaw latitude longitude connection_strength latest_data
     trim push fst snd].

Ltac run_store_in H :=
  cbv beta iota zeta delta
    [Dashboard.add_data Dashboard.bind Dashboard.eval Dashboard.assign
     Dashboard.self Dashboard.ret
     set_timestamps set_battery_voltage set_temperature set_altitude
     set_roll set_pitch set_yaw set_latitude set_longitude
     set_connection_strength set_latest_data
     max_points timestamps battery_voltage temperature altitude roll pitch
     yaw latitude longitude connection_strength latest_data
     trim push fst snd] in H.

(** On a well-formed message [add_data] sets [latest_data], appends
    to every series, trims, and returns. *)
Lemma add_data_parsed (data : pyval) (f : fields datetime) (s : DataStore) :
  parse data = inr f ->
  add_data data s = (trim (push f (set_latest_data (Some data) s)), inr tt).
Proof.
  intros H. unfold StoreSpec.parse, rbind in H.
  destruct s as [m l0 l1 l2 l3 l4 l5 l6 l7 l8 l9 ld].
  run_store.
  destruct (getitem data "timestamp") as [|ts]; [discriminate|].
  destruct (fromisoformat_py fromisoformat ts) as [|t]; [discriminate|].
  destruct (getitem2 data "battery" "voltage"); [discriminate|].
  destruct (getitem2 data "sensors" "temperature"); [discriminate|].
  destruct (getitem2 data "sensors" "altitude"); [discriminate|].
  destruct (getitem2 data "imu" "roll"); [discriminate|].
  destruct (getitem2 data "imu" "pitch"); [discriminate|].
  destruct (getitem2 data "imu" "yaw"); [discriminate|].
  destruct (getitem2 data "gps" "latitude"); [discriminate|].
  destruct (getitem2 data "gps" "longitude"); [discriminate|].
  destruct (getitem2 data "connection" "signal_strength"); [discriminate|].
  injection H as <-. run_store.
  destruct (_ >? _)%Z; reflexivity.
Qed.

(** Close the case in which the read just examined failed. *)
Ltac fails H Hr :=
  injection H as <-; rewrite Hr; run_store;
  repeat split; solve [ left; reflexivity | right; eexists; reflexivity ].

(** On any other message [add_data] raises at the first read that
    fails; [latest_data] is already overwritten, the series read
    before that point have one more entry, and nothing is trimmed. *)
Lemma add_data_raises (data : pyval) (e : exn) (s : DataStore) :
  parse data = inl e ->
  let r := add_data data s in
  snd r = inl e /\
  latest_data (fst r) = Some data /\
  max_points (fst r) = max_points s /\
  grew_by_at_most_one (timestamps s) (timestamps (fst r)) /\
  grew_by_at_most_one (battery_voltage s) (battery_voltage (fst r)) /\
  grew_by_at_most_one (temperature s) (temperature (fst r)) /\
  grew_by_at_most_one (altitude s) (altitude (fst r)) /\
  grew_by_at_most_one (roll s) (roll (fst r)) /\
  grew_by_at_most_one (pitch s) (pitch (fst r)) /\
  grew_by_at_most_one (yaw s) (yaw (fst r)) /\
  grew_by_at_most_one (latitude s) (latitude (fst r)) /\
  grew_by_at_most_one (longitude s) (longitude (fst r)) /\
  connection_strength (fst r) = connection_strength s.
Proof.
  intros H r. unfold StoreSpec.parse, rbind in H.
  assert (Hr : r = add_data data s) by reflexivity. clearbody r.
  destruct s as [m l0 l1 l2 l3 l4 l5 l6 l7 l8 l9 ld].
  run_store_in Hr. unfold grew_by_at_most_one.
  destruct (getitem data "timestamp") as [|ts]; [fails H Hr|].
  destruct (fromisoformat_py fromisoformat ts) as [|t]; [fails H Hr|].
  destruct (getitem2 data "battery" "voltage"); [fails H Hr|].
  destruct (getitem2 data "sensors" "temperature"); [fails H Hr|].
  destruct (getitem2 data "sensors" "altitude"); [fails H Hr|].
  destruct (getitem2 data "imu" "roll"); [fails H Hr|].
  destruct (getitem2 data "imu" "pitch"); [fails H Hr|].
  destruct (getitem2 data "imu" "yaw"); [fails H Hr|].
  destruct (getitem2 data "gps" "latitude"); [fails H Hr|].
  destruct (getitem2 data "gps" "longitude"); [fails H Hr|].
  destruct (getitem2 data "connection" "signal_strength"); [fails H Hr|].
  discriminate.
Qed.


(** *** The window kept by a store of positive capacity *)

Lemma window_lengths (n : nat) (fs : list (fields datetime)) (s : DataStore) :
  window n fs s -> all_length s (Nat.min n (List.length fs)).
Proof.
  unfold window, all_length. intros W.
  repeat match goal with H : _ /\ _ |- _ => destruct H as [? H] end.
  repeat split;
    match goal with
    | E : ?p s = _ |- List.length (?p s) = _ =>
        rewrite E, lastn_length, length_map; reflexivity
    end.
Qed.

Lemma add_data_window (n : nat) (pre : list (fields datetime))
    (f : fields datetime) (data : pyval) (s : DataStore) :
  (0 < n)%nat ->
  parse data = inr f ->
  max_points s = Z.of_nat n ->
  window n pre s ->
  exists s',
    add_data data s = (s', inr tt) /\
    max_points s' = Z.of_nat n /\
    window n (pre ++ [f]) s' /\
    latest_data s' = Some data.
Proof.
  intros Hn Hp Hm W. rewrite (add_data_parsed _ _ Hp).
  eexists; split; [reflexivity|].
  pose proof (window_lengths W) as L.
  destruct s as [m l0 l1 l2 l3 l4 l5 l6 l7 l8 l9 ld].
  unfold window, all_length in *. simpl in Hm, W, L. subst m.
  repeat match goal with H : _ /\ _ |- _ => destruct H as [? H] end.
  run_store.
  destruct (Z.of_nat (List.length (l0 ++ [f_timestamp f])) >? Z.of_nat n)%Z
    eqn:C; simpl; rewrite !map_app; simpl.
  - apply Z.gtb_lt in C. rewrite length_app in C. simpl in C.
    subst. repeat split; try reflexivity;
      apply lastn_snoc_trim; auto;
      rewrite length_app, lastn_length, length_map in *; simpl; lia.
  - assert (C' : (List.length (l0 ++ [f_timestamp f]) <= n)%nat).
    { destruct (Z.gtb_spec (Z.of_nat (List.length (l0 ++ [f_timestamp f])))
                  (Z.of_nat n)); [discriminate | lia]. }
    rewrite length_app in C'. simpl in C'.
    subst. repeat split; try reflexivity;
      apply lastn_snoc_keep;
      rewrite length_app, lastn_length, length_map in *; simpl; lia.
Qed.

Lemma add_all_window (n : nat) (Hn : (0 < n)%nat) :
  forall (msgs : list pyval) (fs pre : list (fields datetime)) (s : DataStore),
    parsed fromisoformat msgs fs ->
    max_points s = Z.of_nat n ->
    window n pre s ->
    exists s',
      add_all msgs s = (s', inr tt) /\
      max_points s' = Z.of_nat n /\
      window n (pre ++ fs) s' /\
      latest_data s' = last (map Some msgs) (latest_data s).
Proof.
  intros msgs fs pre s P. revert pre s.
  induction P as [|m f msgs fs Hp P IH]; intros pre s Hm W.
  - exists s. rewrite app_nil_r. simpl. auto.
  - destruct (@add_data_window n pre f m s Hn Hp Hm W)
      as (s1 & E1 & Hm1 & W1 & L1).
    destruct (IH _ _ Hm1 W1) as (s2 & E2 & Hm2 & W2 & L2).
    exists s2. cbn [StoreSpec.add_all]. rewrite E1, E2.
    rewrite <- app_assoc in W2. simpl in W2.
    split; [reflexivity|]. split; [assumption|]. split; [assumption|].
    rewrite L2, L1. cbn [map]. now rewrite last_cons.
Qed.

Lemma window_empty (n : nat) (z : Z) : window n [] (empty datetime z).
Proof. unfold window, lastn. simpl. repeat split. Qed.

(** *** Equal lengths *)

Lemma trim_push_equal_length (f : fields datetime) (s : DataStore) :
  equal_length s -> equal_length (trim (push f s)).
Proof.
  destruct s as [m l0 l1 l2 l3 l4 l5 l6 l7 l8 l9 ld].
  unfold equal_length. simpl. intros E.
  repeat match goal with H : _ /\ _ |- _ => destruct H as [? H] end.
  run_store.
  destruct (_ >? _)%Z; simpl; repeat split;
    try (apply slice_from_length_eq); rewrite !length_app; simpl; lia.
Qed.

(** *** A store of capacity zero *)

Lemma add_data_zero (n : nat) (f : fields datetime) (data : pyval)
    (s : DataStore) :
  parse data = inr f ->
  max_points s = 0%Z ->
  all_length s n ->
  exists s',
    add_data data s = (s', inr tt) /\
    max_points s' = 0%Z /\
    all_length s' (S n).
Proof.
  intros Hp Hm L. rewrite (add_data_parsed _ _ Hp).
  eexists; split; [reflexivity|].
  destruct s as [m l0 l1 l2 l3 l4 l5 l6 l7 l8 l9 ld].
  unfold all_length in *. simpl in Hm, L. subst m.
  repeat match goal with H : _ /\ _ |- _ => destruct H as [? H] end.
  run_store.
  destruct (_ >? _)%Z; simpl; rewrite ?slice_from_zero, !length_app; simpl;
    repeat split; lia.
Qed.

Lemma add_all_zero :
  forall (msgs : list pyval) (fs : list (fields datetime)) (n : nat)
         (s : DataStore),
    parsed fromisoformat msgs fs ->
    max_points s = 0%Z ->
    all_length s n ->
    exists s',
      add_all msgs s = (s', inr tt) /\
      max_points s' = 0%Z /\
      all_length s' (n + List.length msgs).
Proof.
  intros msgs fs n s P. revert n s.
  induction P as [|m f msgs fs Hp P IH]; intros n s Hm L.
  - exists s. simpl. rewrite Nat.add_0_r. auto.
  - destruct (add_data_zero m Hp Hm L) as (s1 & E1 & Hm1 & L1).
    destruct (IH _ _ Hm1 L1) as (s2 & E2 & Hm2 & L2).
    exists s2. cbn [StoreSpec.add_all List.length]. rewrite E1, E2.
    replace (n + S (List.length msgs))%nat
      with (S n + List.length msgs)%nat by lia.
    auto.
Qed.

(** *** Draining the queue *)

Lemma add_all_parsed :
  forall (msgs : list pyval) (fs : list (fields datetime)) (s : DataStore),
    parsed fromisoformat msgs fs ->
    exists s', add_all msgs s = (s', inr tt).
Proof.
  intros msgs fs s P. revert s.
  induction P as [|m f msgs fs Hp P IH]; intros s.
  - exists s. reflexivity.
  - cbn [StoreSpec.add_all]. rewrite (add_data_parsed _ _ Hp). apply IH.
Qed.

Lemma process_queue_add_all (n : Z) (msgs : list pyval)
    (s s' : DataStore) :
  add_all msgs s = (s', inr tt) ->
  process_queue fromisoformat n msgs s = ([], s', inr n).
Proof.
  revert s. induction msgs as [|m msgs IH]; intros s; simpl.
  - intros E. injection E as <-. reflexivity.
  - destruct (add_data m s) as [s1 [e|[]]]; [discriminate|]. apply IH.
Qed.

End StoreFacts.

Section StoreClaims.

Import Dashboard StoreSpec.

Variable datetime : Type.
Variable fromisoformat : string -> option datetime.

Local Abbreviation DataStore := (DataStore datetime).
Local Abbreviation parse := (parse fromisoformat).
Local Abbreviation add_data := (add_data fromisoformat).
Local Abbreviation add_all := (add_all fromisoformat).

(** C1 (amended).  For every capacity [N > 0] and every sequence of
    well-formed messages added to a freshly constructed store: every
    one of the ten series has length [min N (number of adds)]; when
    the number of adds is [N + k] with [k > 0], the oldest entry of
    every series is the value read from the [(k+1)]-th message; and
    [latest_data] is the last message added. *)
Theorem sliding_window (N : Z) (msgs : list pyval)
    (fs : list (fields datetime)) :
  (0 < N)%Z ->
  parsed fromisoformat msgs fs ->
  exists st0 st : DataStore,
    init datetime N = inr st0 /\
    add_all msgs st0 = (st, inr tt) /\
    all_length st (Z.to_nat (Z.min N (Z.of_nat (List.length msgs)))) /\
    (forall k : nat,
        (0 < k)%nat ->
        Z.of_nat (List.length msgs) = (N + Z.of_nat k)%Z ->
        exists f, nth_error fs k = Some f /\ oldest_is st f) /\
    (msgs <> [] -> latest_data st = Some (last msgs PNone)).
Proof.
  intros HN P.
  assert (Hlen : List.length msgs = List.length fs)
    by (induction P; simpl; congruence).
  destruct (@add_all_window datetime fromisoformat (Z.to_nat N) ltac:(lia)
              msgs fs [] (empty datetime N) P)
    as (st & E & Hm & W & L).
  { simpl. lia. }
  { apply window_empty. }
  exists (empty datetime N), st. simpl in W.
  split; [reflexivity|]. split; [exact E|]. split; [|split].
  - pose proof (window_lengths W) as HL.
    replace (Z.to_nat (Z.min N (Z.of_nat (List.length msgs))))
      with (Nat.min (Z.to_nat N) (List.length fs)) by lia.
    exact HL.
  - intros k Hk Hk'.
    assert (Hk2 : (List.length fs - Z.to_nat N)%nat = k) by lia.
    destruct (nth_error fs k) as [f|] eqn:Ef.
    2:{ apply nth_error_None in Ef. lia. }
    exists f. split; [reflexivity|].
    unfold window in W. unfold oldest_is.
    repeat match goal with H : _ /\ _ |- _ => destruct H as [? H] end.
    repeat split;
      match goal with
      | H : ?p st = _ |- hd_error (?p st) = _ =>
          rewrite H, lastn_hd, length_map, Hk2, nth_error_map, Ef;
          reflexivity
      end.
  - intros Hne. rewrite L. simpl.
    destruct msgs as [|m msgs]; [contradiction|].
    cbn [map]. rewrite !last_cons.
    clear. revert m. induction msgs as [|a l IH]; intros m; [reflexivity|].
    cbn [map]. rewrite !last_cons. apply IH.
Qed.


(** C10.  With [max_points = 0] the slice [l[-0:]] is the whole list,
    so the trim removes nothing: after any sequence of [n] adds of
    well-formed messages to a fresh store every series has length
    exactly [n]. *)
Theorem zero_capacity_never_trims (msgs : list pyval)
    (fs : list (fields datetime)) :
  parsed fromisoformat msgs fs ->
  (forall l : list pyval, slice_from l (- 0) = l) /\
  exists st : DataStore,
    add_all msgs (empty datetime 0) = (st, inr tt) /\
    all_length st (List.length msgs).
Proof.
  intros P. split.
  - intros l. apply slice_from_zero.
  - destruct (@add_all_zero datetime fromisoformat msgs fs 0%nat
                (empty datetime 0) P)
      as (st & E & _ & L).
    + reflexivity.
    + unfold all_length. simpl. repeat split.
    + exists st. auto.
Qed.

(** C7 (amended).  The constructor checks nothing: for every integer
    [N], positive or not, it returns the empty store with
    [max_points = N], and never an error. *)
Theorem init_accepts_any_capacity (N : Z) :
  init datetime N = inr (empty datetime N) /\
  forall e : exn, init datetime N <> inl e.
Proof. split; [reflexivity|]. intros e. discriminate. Qed.

(** C6 (amended).  A message on which one of the reads of [add_data]
    fails is not set aside cleanly: [add_data] raises, but by then it
    has made the message [latest_data] and has appended to the series
    read before the failing one (each series is unchanged or one
    longer, nothing is trimmed); [process_queue] does not catch the
    error, so the message is gone from the queue, the messages after
    it stay queued, and a later [process_queue] takes well-formed
    ones in as [add_data] does. *)
Theorem malformed_message_effect (data : pyval) (e : exn) (s : DataStore)
    (rest : list pyval) (fs : list (fields datetime)) (n : Z) :
  parse data = inl e ->
  parsed fromisoformat rest fs ->
  let r := add_data data s in
  snd r = inl e /\
  latest_data (fst r) = Some data /\
  max_points (fst r) = max_points s /\
  grew_by_at_most_one (timestamps s) (timestamps (fst r)) /\
  grew_by_at_most_one (battery_voltage s) (battery_voltage (fst r)) /\
  grew_by_at_most_one (temperature s) (temperature (fst r)) /\
  grew_by_at_most_one (altitude s) (altitude (fst r)) /\
  grew_by_at_most_one (roll s) (roll (fst r)) /\
  grew_by_at_most_one (pitch s) (pitch (fst r)) /\
  grew_by_at_most_one (yaw s) (yaw (fst r)) /\
  grew_by_at_most_one (latitude s) (latitude (fst r)) /\
  grew_by_at_most_one (longitude s) (longitude (fst r)) /\
  connection_strength (fst r) = connection_strength s /\
  process_queue fromisoformat n (data :: rest) s = (rest, fst r, inl e) /\
  exists s',
    add_all rest (fst r) = (s', inr tt) /\
    process_queue fromisoformat n rest (fst r) = ([], s', inr n).
Proof.
  intros Hp P r.
  pose proof (add_data_raises fromisoformat data s Hp) as H.
  cbv zeta in H. fold r in H.
  repeat match type of H with
         | _ /\ _ =>
             let H1 := fresh in destruct H as [H1 H]; split; [exact H1|]
         end.
  split; [exact H|]. split.
  - cbn [process_queue].
    change (Dashboard.add_data fromisoformat data s) with r. clearbody r.
    destruct r as [s1 [e1|u]]; simpl in *; congruence.
  - destruct (@add_all_parsed datetime fromisoformat rest fs (fst r) P)
      as (s' & E).
    exists s'. split; [exact E|]. now apply process_queue_add_all.
Qed.

End StoreClaims.

(** *** Instances on concrete messages *)

Section StoreExamples.

Import Dashboard StoreSpec.

Lemma message_parsed (i : Z) :
  parse iso_text (message i) = inr (message_fields i).
Proof. reflexivity. Qed.

Lemma sliding_window_witness :
  exists st0 st : DataStore string,
    init string 2 = inr st0 /\
    add_all iso_text [message 1; message 2; message 3] st0 = (st, inr tt) /\
    all_length st (Z.to_nat (Z.min 2 (Z.of_nat 3))) /\
    (forall k : nat,
        (0 < k)%nat ->
        Z.of_nat 3 = (2 + Z.of_nat k)%Z ->
        exists f,
          nth_error (map message_fields [1; 2; 3]%Z) k = Some f /\
          oldest_is st f) /\
    ([message 1; message 2; message 3] <> [] ->
     latest_data st = Some (last [message 1; message 2; message 3] PNone)).
Proof.
  apply (@sliding_window string iso_text 2
           [message 1; message 2; message 3]
           (map message_fields [1; 2; 3]%Z)).
  - reflexivity.
  - repeat (apply Forall2_cons; [reflexivity|]). apply Forall2_nil.
Defined.

(** C1 fails for capacity 0: one add to [DataStore(0)] leaves every
    series with one entry, not with [min 0 1 = 0]. *)
Lemma zero_capacity_exceeds_min :
  parsed iso_text [message 1] [message_fields 1] /\
  ~ (exists st0 st : DataStore string,
        init string 0 = inr st0 /\
        add_all iso_text [message 1] st0 = (st, inr tt) /\
        all_length st
          (Z.to_nat (Z.min 0 (Z.of_nat (List.length [message 1]))))).
Proof.
  split.
  - apply Forall2_cons; [reflexivity | apply Forall2_nil].
  - intros (st0 & st & E0 & E & L & _).
    injection E0 as <-. vm_compute in E. injection E as <-.
    vm_compute in L. discriminate.
Qed.


Lemma zero_capacity_never_trims_witness :
  (forall l : list pyval, slice_from l (- 0) = l) /\
  exists st : DataStore string,
    add_all iso_text [message 1; message 2] (empty string 0)
    = (st, inr tt) /\
    all_length st (List.length [message 1; message 2]).
Proof.
  apply (@zero_capacity_never_trims string iso_text [message 1; message 2]
           (map message_fields [1; 2]%Z)).
  repeat (apply Forall2_cons; [reflexivity|]). apply Forall2_nil.
Defined.

(** The scenario of the specification: 150 samples into the default
    capacity of 100. *)
Lemma scenario_150_samples :
  let msgs := map message (map Z.of_nat (seq 1 150)) in
  let r := add_all iso_text msgs (empty string MAX_DATA_POINTS) in
  snd r = inr tt /\
  all_length (fst r) 100 /\
  latest_data (fst r) = Some (message 150) /\
  oldest_is (fst r) (message_fields 51).
Proof. vm_compute. repeat split. Qed.

(** C7 fails: capacities 0 and -5 are taken without an error. *)
Lemma nonpositive_capacity_accepted :
  init string 0 = inr (empty string 0) /\
  init string (-5) = inr (empty string (-5)).
Proof. split; reflexivity. Qed.

(** C6 fails: a message without its ["imu"] entry, added to an empty
    store of capacity 100, raises [KeyError] and leaves the store with
    that message as [latest_data], four series of length 1 and six of
    length 0. *)
Lemma missing_field_corrupts_store :
  let s := empty string 100 in
  let r := add_data iso_text (message_without_imu 1) s in
  well_formed iso_text (message_without_imu 1) = false /\
  equal_length s /\
  snd r = inl (KeyError "imu") /\
  latest_data (fst r) = Some (message_without_imu 1) /\
  latest_data (fst r) <> latest_data s /\
  List.length (timestamps (fst r)) = 1%nat /\
  List.length (battery_voltage (fst r)) = 1%nat /\
  List.length (temperature (fst r)) = 1%nat /\
  List.length (altitude (fst r)) = 1%nat /\
  List.length (roll (fst r)) = 0%nat /\
  List.length (pitch (fst r)) = 0%nat /\
  List.length (yaw (fst r)) = 0%nat /\
  List.length (latitude (fst r)) = 0%nat /\
  List.length (longitude (fst r)) = 0%nat /\
  List.length (connection_strength (fst r)) = 0%nat /\
  ~ equal_length (fst r).
Proof.
  cbv zeta. repeat split; try reflexivity.
  - discriminate.
  - unfold equal_length. vm_compute. intros H.
    repeat match goal with H : _ /\ _ |- _ => destruct H as [? H] end.
    discriminate.
Qed.

Lemma malformed_message_effect_witness :
  let s := empty string 100 in
  let data := message_without_imu 1 in
  let rest := [message 2] in
  let r := add_data iso_text data s in
  snd r = inl (KeyError "imu") /\
  latest_data (fst r) = Some data /\
  process_queue iso_text 7 (data :: rest) s
  = (rest, fst r, inl (KeyError "imu")) /\
  exists s',
    add_all iso_text rest (fst r) = (s', inr tt) /\
    process_queue iso_text 7 rest (fst r) = ([], s', inr 7%Z).
Proof.
  intros s data rest r.
  pose proof (@malformed_message_effect string iso_text data
                (KeyError "imu") s rest [message_fields 2] 7
                eq_refl
                (Forall2_cons _ _ (message_parsed 2) (Forall2_nil _)))
    as H.
  cbv zeta in H. fold r in H.
  destruct H
    as (H1 & H2 & _ & _ & _ & _ & _ & _ & _ & _ & _ & _ & _ & H3 & H4).
  exact (conj H1 (conj H2 (conj H3 H4))).
Defined.

End StoreExamples.

(* ------------------------------------------------------------------ *)
(** * Properties of the generator                                       *)
(* ------------------------------------------------------------------ *)

Section RationalFacts.

Import Transmitter GeneratorSpec.
Local Open Scope Q_scope.

Lemma ltb_true (x y : Q) : ltb x y = true <-> x < y.
Proof.
  unfold ltb. rewrite Qlt_alt.
  destruct (Qcompare x y); split; congruence.
Qed.

Lemma ltb_false (x y : Q) : ltb x y = false <-> y <= x.
Proof.
  unfold ltb. destruct (Qcompare x y) eqn:C.
  - apply Qeq_alt in C. split; [intros _; lra | reflexivity].
  - apply Qlt_alt in C. split; [discriminate | intros H; lra].
  - apply Qgt_alt in C. split; [intros _; lra | reflexivity].
Qed.

Lemma py_min_spec (a b : Q) : py_min a b <= a /\ py_min a b <= b /\
                              (py_min a b = a \/ py_min a b = b).
Proof.
  unfold py_min. destruct (ltb b a) eqn:E.
  - apply ltb_true in E. repeat split; auto; lra.
  - apply ltb_false in E. repeat split; auto; lra.
Qed.

Lemma py_max_spec (a b : Q) : a <= py_max a b /\ b <= py_max a b /\
                              (py_max a b = a \/ py_max a b = b).
Proof.
  unfold py_max. destruct (ltb a b) eqn:E.
  - apply ltb_true in E. repeat split; auto; lra.
  - apply ltb_false in E. repeat split; auto; lra.
Qed.

(** [max(8.0, min(12.0, v))] lies in [[8, 12]] for every [v]. *)
Lemma voltage_clamp_range (v : Q) :
  8 <= py_max 8.0 (py_min 12.0 v) <= 12.
Proof.
  destruct (py_max_spec 8.0 (py_min 12.0 v)) as (H1 & H2 & [H3|H3]);
  destruct (py_min_spec 12.0 v) as (H4 & H5 & _);
  rewrite H3 in *; lra.
Qed.

Lemma clamp_inside (x lo hi : Q) : lo <= x <= hi -> clamp x lo hi = x.
Proof.
  intros [H1 H2]. unfold clamp.
  destruct (ltb x lo) eqn:E1; [apply ltb_true in E1; lra|].
  destruct (ltb hi x) eqn:E2; [apply ltb_true in E2; lra|].
  reflexivity.
Qed.


Lemma round_half_even_bounds (a b : Z) (x : Q) :
  inject_Z a <= x <= inject_Z b ->
  (a <= round_half_even x <= b)%Z.
Proof.
  intros [Ha Hb]. unfold round_half_even.
  assert (Hfa : (a <= Qfloor x)%Z).
  { rewrite <- (Qfloor_Z a). now apply Qfloor_resp_le. }
  assert (Hfb : (Qfloor x <= b)%Z).
  { rewrite <- (Qfloor_Z b). now apply Qfloor_resp_le. }
  assert (Hup : 0 < x - inject_Z (Qfloor x) -> (Qfloor x + 1 <= b)%Z).
  { intros Hpos.
    assert (Hlt : inject_Z (Qfloor x) < inject_Z b) by lra.
    rewrite <- Zlt_Qlt in Hlt. lia. }
  destruct (Qcompare (x - inject_Z (Qfloor x)) 0.5) eqn:C.
  - apply Qeq_alt in C.
    destruct (Z.even (Qfloor x)); [lia|].
    split; [lia|]. apply Hup. rewrite C. reflexivity.
  - lia.
  - apply Qgt_alt in C. split; [lia|]. apply Hup.
    assert (0 < 0.5) by reflexivity. lra.
Qed.

Lemma pow10_pos (n : nat) : 0 < inject_Z (10 ^ Z.of_nat n).
Proof.
  change 0 with (inject_Z 0). rewrite <- Zlt_Qlt.
  apply Z.pow_pos_nonneg; lia.
Qed.

(** Rounding to [n] decimals keeps a value between two integers. *)
Lemma py_round_bounds (a b : Z) (x : Q) (n : nat) :
  inject_Z a <= x <= inject_Z b ->
  inject_Z a <= py_round x n <= inject_Z b.
Proof.
  intros [Ha Hb]. unfold py_round.
  pose proof (pow10_pos n) as Hp.
  set (p := (10 ^ Z.of_nat n)%Z) in *.
  destruct (@round_half_even_bounds (a * p) (b * p) (x * inject_Z p))
    as [Hl Hu].
  { rewrite !inject_Z_mult. split.
    - apply Qmult_le_compat_r; lra.
    - apply Qmult_le_compat_r; lra. }
  rewrite Zle_Qle, inject_Z_mult in Hl.
  rewrite Zle_Qle, inject_Z_mult in Hu.
  split.
  - apply Qle_shift_div_l; assumption.
  - apply Qle_shift_div_r; assumption.
Qed.

(** [round] moves a value by at most half a unit of the last decimal
    kept. *)
Lemma round_half_even_close (y : Q) :
  y - 0.5 <= inject_Z (round_half_even y) <= y + 0.5.
Proof.
  unfold round_half_even.
  pose proof (Qfloor_le y) as H1. pose proof (Qlt_floor y) as H2.
  rewrite inject_Z_plus in H2. change (inject_Z 1) with 1 in H2.
  destruct (Qcompare (y - inject_Z (Qfloor y)) 0.5) eqn:C.
  - apply Qeq_alt in C. destruct (Z.even (Qfloor y)).
    + lra.
    + rewrite inject_Z_plus. change (inject_Z 1) with 1. lra.
  - apply Qlt_alt in C. lra.
  - apply Qgt_alt in C. rewrite inject_Z_plus. change (inject_Z 1) with 1.
    lra.
Qed.

Lemma py_round_close (x : Q) (n : nat) :
  let p := inject_Z (10 ^ Z.of_nat n) in
  x - 0.5 / p <= py_round x n <= x + 0.5 / p.
Proof.
  cbv zeta. unfold py_round.
  pose proof (pow10_pos n) as Hp.
  set (p := inject_Z (10 ^ Z.of_nat n)) in *.
  destruct (round_half_even_close (x * p)) as [Hl Hu].
  set (r := inject_Z (round_half_even (x * p))) in *.
  split.
  - apply Qle_shift_div_l; [exact Hp|].
    setoid_replace ((x - 0.5 / p) * p) with (x * p - 0.5) by (field; lra).
    exact Hl.
  - apply Qle_shift_div_r; [exact Hp|].
    setoid_replace ((x + 0.5 / p) * p) with (x * p + 0.5) by (field; lra).
    exact Hu.
Qed.

End RationalFacts.

Section GeneratorClaims.

Import Transmitter GeneratorSpec.
Local Open Scope Q_scope.

(** [math.sin] and [math.cos]: nothing below depends on what they
    compute. *)
Variables sin cos : Q -> Q.

Local Abbreviation generate_data := (generate_data sin cos).
Local Abbreviation ticks := (ticks sin cos).

Lemma percentage_range (v : Q) :
  8 <= v <= 12 -> 0 <= (v - 8.0) / 4.0 * 100 <= 100.
Proof. intros H. unfold Qdiv. change (/ 4.0) with (10 # 40). lra. Qed.

(** C3.  After every tick of every run, whatever the draws are, the
    generator's voltage lies in [[8, 12]], and the percentage in the
    sample returned by that tick lies in [[0, 100]] and is
    [clamp((voltage - 8.0) / 4.0 * 100, 0, 100)] rounded to one
    decimal. *)
Theorem battery_stays_in_range (self : DroneDataGenerator)
    (ds : list draws) :
  Forall
    (fun r : DroneDataGenerator * pyval =>
       8 <= battery_voltage (fst r) <= 12 /\
       exists p : Q,
         getitem2 (snd r) "battery" "percentage" = inr (PFloat p) /\
         0 <= p <= 100 /\
         p = py_round
               (clamp ((battery_voltage (fst r) - 8.0) / 4.0 * 100) 0 100)
               1)
    (ticks self ds).
Proof.
  revert self. induction ds as [|d ds IH]; intros self; simpl.
  - constructor.
  - constructor; [|apply IH].
    unfold Transmitter.generate_data. cbn [fst snd battery_voltage].
    set (v := py_max 8.0 (py_min 12.0 _)).
    assert (Hv : 8 <= v <= 12) by apply voltage_clamp_range.
    pose proof (percentage_range Hv) as Hp.
    split; [exact Hv|].
    eexists. split; [reflexivity|]. split.
    + apply (@py_round_bounds 0 100). exact Hp.
    + rewrite clamp_inside; [reflexivity | exact Hp].
Qed.


(** C9.  After [generate_data] every field of the generator holds the
    unrounded result of its update rule, computed from the previous
    unrounded fields and the draws; the entries of the sample are
    those fields passed through [round], and [round] occurs nowhere
    else. *)
Theorem rounding_is_cosmetic (self : DroneDataGenerator) (d : draws) :
  let g := fst (generate_data self d) in
  let s := snd (generate_data self d) in
  time_offset g = time_offset self + UPDATE_INTERVAL /\
  battery_voltage g =
    py_max 8.0 (py_min 12.0 (battery_voltage self - 0.001 + u_battery d)) /\
  temperature g = temperature self + u_temperature d /\
  roll g = 15 * sin (time_offset g / 5) + u_roll d /\
  pitch g = 10 * cos (time_offset g / 7) + u_pitch d /\
  yaw g = py_mod (yaw self + 1 + u_yaw d) 360 /\
  altitude g = 100 + 10 * sin (time_offset g / 15) + u_altitude d /\
  latitude g = latitude self + 0.0001 * sin (time_offset g / 20) /\
  longitude g = longitude self + 0.0001 * cos (time_offset g / 20) /\
  getitem2 s "battery" "voltage"
    = inr (PFloat (py_round (battery_voltage g) 2)) /\
  getitem2 s "sensors" "temperature"
    = inr (PFloat (py_round (temperature g) 1)) /\
  getitem2 s "sensors" "altitude"
    = inr (PFloat (py_round (altitude g) 1)) /\
  getitem2 s "imu" "roll" = inr (PFloat (py_round (roll g) 2)) /\
  getitem2 s "imu" "pitch" = inr (PFloat (py_round (pitch g) 2)) /\
  getitem2 s "imu" "yaw" = inr (PFloat (py_round (yaw g) 2)) /\
  getitem2 s "gps" "latitude" = inr (PFloat (py_round (latitude g) 6)) /\
  getitem2 s "gps" "longitude" = inr (PFloat (py_round (longitude g) 6)) /\
  getitem2 s "gps" "altitude" = inr (PFloat (py_round (altitude g) 1)).
Proof.
  unfold Transmitter.generate_data. cbn [fst snd].
  repeat split.
Qed.

End GeneratorClaims.

Section GeneratorExamples.

Import Transmitter.
Local Open Scope Q_scope.


(** Two ticks without noise from the initial state: the generator holds
    11.999 and then 11.998, while the first sample shows 12.0. *)
Lemma state_keeps_what_round_drops (sin cos : Q -> Q) :
  let d := mkDraws "2025-01-01T00:00:00" 0 0 0 0 0 0 0.5 0 in
  let r1 := generate_data sin cos init d in
  let r2 := generate_data sin cos (fst r1) d in
  battery_voltage (fst r1) == 11.999 /\
  (exists v, getitem2 (snd r1) "battery" "voltage" = inr (PFloat v) /\
             v == 12.0) /\
  battery_voltage (fst r2) == 11.998.
Proof.
  cbv zeta. split; [reflexivity|]. split; [|reflexivity].
  eexists. split; reflexivity.
Qed.

End GeneratorExamples.

(* ------------------------------------------------------------------ *)
(** * Properties of the pose transform                                  *)
(* ------------------------------------------------------------------ *)

Section PoseFacts.
Import Pose.
Local Open Scope R_scope.

Lemma cos_half (t : R) :
  cos t = cos (t / 2) * cos (t / 2) - sin (t / 2) * sin (t / 2).
Proof. rewrite <- cos_2a. f_equal. lra. Qed.

Lemma sin_half (t : R) : sin t = 2 * sin (t / 2) * cos (t / 2).
Proof. rewrite <- sin_2a. f_equal. lra. Qed.

Lemma sin_cos_one (t : R) : cos t * cos t + sin t * sin t = 1.
Proof. pose proof (sin2_cos2 t) as H. unfold Rsqr in H. lra. Qed.

Lemma sqrt_axis : sqrt (0 * 0 + 0 * 0 + 0.75 * 0.75) = 0.75.
Proof.
  replace (0 * 0 + 0 * 0 + 0.75 * 0.75) with (0.75 * 0.75) by lra.
  apply sqrt_square. lra.
Qed.

Lemma vec_ext (a0 a1 a2 b0 b1 b2 : R) :
  a0 = b0 -> a1 = b1 -> a2 = b2 -> (a0, a1, a2) = (b0, b1, b2).
Proof. now intros -> -> ->. Qed.

Lemma mat_ext (r0 r1 r2 q0 q1 q2 : vec) :
  r0 = q0 -> r1 = q1 -> r2 = q2 -> (r0, r1, r2) = (q0, q1, q2).
Proof. now intros -> -> ->. Qed.

Ltac by_components :=
  repeat (apply mat_ext); repeat (apply vec_ext).

Lemma R_z_std (t : R) : R_z t = std_Rz t.
Proof.
  unfold R_z, rotation_matrix, std_Rz, dot.
  rewrite sqrt_axis. rewrite (cos_half t), (sin_half t).
  pose proof (sin_cos_one (t / 2)) as H.
  set (c := cos (t / 2)) in *. set (s := sin (t / 2)) in *.
  by_components; lra.
Qed.

Lemma sqrt_axis_y : sqrt (0 * 0 + 0.75 * 0.75 + 0 * 0) = 0.75.
Proof.
  replace (0 * 0 + 0.75 * 0.75 + 0 * 0) with (0.75 * 0.75) by lra.
  apply sqrt_square. lra.
Qed.

Lemma sqrt_axis_x : sqrt (0.75 * 0.75 + 0 * 0 + 0 * 0) = 0.75.
Proof.
  replace (0.75 * 0.75 + 0 * 0 + 0 * 0) with (0.75 * 0.75) by lra.
  apply sqrt_square. lra.
Qed.

Lemma R_y_std (t : R) : R_y t = std_Ry t.
Proof.
  unfold R_y, rotation_matrix, std_Ry, dot.
  rewrite sqrt_axis_y. rewrite (cos_half t), (sin_half t).
  pose proof (sin_cos_one (t / 2)) as H.
  set (c := cos (t / 2)) in *. set (s := sin (t / 2)) in *.
  by_components; lra.
Qed.

Lemma R_x_std (t : R) : R_x t = std_Rx t.
Proof.
  unfold R_x, rotation_matrix, std_Rx, dot.
  rewrite sqrt_axis_x. rewrite (cos_half t), (sin_half t).
  pose proof (sin_cos_one (t / 2)) as H.
  set (c := cos (t / 2)) in *. set (s := sin (t / 2)) in *.
  by_components; lra.
Qed.

Lemma rotation_std (roll pitch yaw : R) :
  rotation roll pitch yaw =
  mat_dot (mat_dot (std_Rz (radians yaw)) (std_Ry (radians pitch)))
          (std_Rx (radians roll)).
Proof. unfold rotation. now rewrite R_z_std, R_y_std, R_x_std. Qed.

Lemma radians_0 : radians 0 = 0.
Proof. unfold radians. lra. Qed.

Lemma radians_90 : radians 90 = PI / 2.
Proof. unfold radians. lra. Qed.

Lemma rotation_zero : rotation 0 0 0 = identity.
Proof.
  rewrite rotation_std, radians_0.
  unfold std_Rz, std_Ry, std_Rx, mat_dot, col, dot, identity.
  rewrite cos_0, sin_0. by_components; lra.
Qed.

Lemma rotation_yaw_90 :
  rotation 0 0 90 = ((0, -1, 0), (1, 0, 0), (0, 0, 1)).
Proof.
  rewrite rotation_std, radians_0, radians_90.
  unfold std_Rz, std_Ry, std_Rx, mat_dot, col, dot.
  rewrite cos_0, sin_0, cos_PI2, sin_PI2. by_components; lra.
Qed.

Lemma points_dot_transpose (m : mat) (pts : list vec) :
  points_dot pts (transpose m) = map (apply m) pts.
Proof.
  unfold points_dot. apply map_ext. intros [[x y] z].
  destruct m as [[[[a b] c] [[d e] f]] [[g h] i]].
  unfold transpose, col, apply, dot. by_components; lra.
Qed.

Lemma apply_identity (v : vec) : apply identity v = v.
Proof.
  destruct v as [[x y] z]. unfold apply, identity, dot.
  by_components; lra.
Qed.

(** C5.  [rotation_matrix] about each of the three axes used is the
    textbook counterclockwise rotation about that axis; the pose
    matrix is their product in the order Z (yaw), Y (pitch), X (roll),
    and the body and the arms are mapped through it; at
    roll = pitch = yaw = 0 the matrix is the identity and the body and
    the arms are unchanged; at yaw = 90 degrees, roll = pitch = 0, the
    matrix is the quarter turn about the vertical axis and the tip of
    the front arm goes from [(0, arm_length, thickness)] to
    [(- arm_length, 0, thickness)]. *)
Theorem pose_is_yaw_pitch_roll_product :
  (forall t, R_z t = std_Rz t) /\
  (forall t, R_y t = std_Ry t) /\
  (forall t, R_x t = std_Rx t) /\
  (forall roll pitch yaw,
      rotation roll pitch yaw =
      mat_dot (mat_dot (std_Rz (radians yaw)) (std_Ry (radians pitch)))
              (std_Rx (radians roll))) /\
  (forall roll pitch yaw,
      let g := rotated_geometry roll pitch yaw in
      let M := rotation roll pitch yaw in
      body_rotated g = map (apply M) body_points /\
      arm_front_rotated g = map (apply M) arm_front /\
      arm_back_rotated g = map (apply M) arm_back /\
      arm_right_rotated g = map (apply M) arm_right /\
      arm_left_rotated g = map (apply M) arm_left) /\
  rotation 0 0 0 = identity /\
  (let g := rotated_geometry 0 0 0 in
   body_rotated g = body_points /\
   arm_front_rotated g = arm_front /\
   arm_back_rotated g = arm_back /\
   arm_right_rotated g = arm_right /\
   arm_left_rotated g = arm_left) /\
  rotation 0 0 90 = std_Rz (PI / 2) /\
  rotation 0 0 90 = ((0, -1, 0), (1, 0, 0), (0, 0, 1)) /\
  nth_error arm_front 2 = Some (0, arm_length, thickness) /\
  nth_error (arm_front_rotated (rotated_geometry 0 0 90)) 2
  = Some (- arm_length, 0, thickness).
Proof.
  split; [exact R_z_std|]. split; [exact R_y_std|].
  split; [exact R_x_std|]. split; [exact rotation_std|].
  split.
  { intros roll pitch yaw. cbv zeta. unfold rotated_geometry.
    cbn [body_rotated arm_front_rotated arm_back_rotated arm_right_rotated
         arm_left_rotated].
    rewrite !points_dot_transpose. repeat split. }
  split; [exact rotation_zero|].
  split.
  { cbv zeta. unfold rotated_geometry.
    cbn [body_rotated arm_front_rotated arm_back_rotated arm_right_rotated
         arm_left_rotated].
    rewrite !points_dot_transpose, rotation_zero.
    assert (Hid : forall l : list vec, map (apply identity) l = l).
    { intros l. rewrite <- (map_id l) at 2. apply map_ext.
      apply apply_identity. }
    rewrite !Hid. repeat split. }
  split.
  { rewrite rotation_yaw_90. unfold std_Rz. rewrite cos_PI2, sin_PI2.
    reflexivity. }
  split; [exact rotation_yaw_90|].
  split; [reflexivity|].
  unfold rotated_geometry. cbn [arm_front_rotated].
  rewrite points_dot_transpose, rotation_yaw_90.
  unfold arm_front. cbn [map nth_error]. f_equal.
  unfold apply, dot. by_components; lra.
Qed.

End PoseFacts.

(* ------------------------------------------------------------------ *)
(** * Properties of the reconnecting consumer                           *)
(* ------------------------------------------------------------------ *)

Section ClientFacts.
Import Client.
Variable loads : string -> result pyval.

Lemma sleeps_app (a b : list action) : sleeps (a ++ b) = sleeps a ++ sleeps b.
Proof. unfold sleeps. apply flat_map_app. Qed.

Lemma step_uninterrupted (s : state) (r : response) :
  is_crashed s = false ->
  interrupted loads s r = false ->
  is_crashed (fst (step loads s r)) = false /\
  sleeps (snd (step loads s r)) =
    if channel_failure loads s r then [5%Z] else [].
Proof.
  destruct s as [p q]. unfold is_crashed, interrupted, channel_failure, step.
  cbn [at_pc data_queue].
  destruct p, r; try discriminate; intros _ H; unfold handler;
    try destruct (loads payload) as [e|j];
    try destruct (is_Exception e); try discriminate; simpl; auto.
Qed.

Lemma run_uninterrupted (rs : list response) :
  forall s : state,
    is_crashed s = false ->
    uninterrupted loads s rs = true ->
    is_crashed (fst (run loads s rs)) = false /\
    sleeps (snd (run loads s rs)) = repeat 5%Z (failures loads s rs).
Proof.
  induction rs as [|r rs IH]; intros s Hs Hu; simpl.
  - auto.
  - simpl in Hu. apply andb_true_iff in Hu. destruct Hu as [Hi Hu].
    apply negb_true_iff in Hi.
    destruct (step_uninterrupted s r Hs Hi) as [Hc Hsl].
    destruct (step loads s r) as [s1 a1] eqn:E1. simpl in *.
    destruct (IH s1 Hc Hu) as [Hc2 Hsl2].
    destruct (run loads s1 rs) as [s2 a2]. simpl in *.
    split; [exact Hc2|].
    rewrite sleeps_app, Hsl, Hsl2.
    destruct (channel_failure loads s r); reflexivity.
Qed.

Lemma step_failure (s : state) (r : response) :
  is_crashed s = false ->
  channel_failure loads s r = true ->
  exists e : exn,
    step loads s r = (mkState Sleeping (data_queue s), [PrintError e; Sleep 5]).
Proof.
  destruct s as [p q]. unfold is_crashed, channel_failure, step.
  cbn [at_pc data_queue].
  destruct p, r; try discriminate; intros _ H; unfold handler;
    try destruct (loads payload) as [e|j]; try discriminate;
    exists e; rewrite H; reflexivity.
Qed.
(** C8.  Along every run in which no interrupt or cancellation
    arrives, the coroutine never leaves its loop, and it has slept
    exactly once, for 5 seconds, per channel failure: however many
    failures came before, the delay is the same and there is no limit
    on their number.  One step at a time: a channel failure in
    [connect], in [recv] or in [json.loads] is caught, reported, and
    followed by [asyncio.sleep(5)]; when the sleep returns the
    coroutine calls [websockets.connect(WS_SERVER)] again. *)
Theorem reconnects_after_five_seconds_forever (rs : list response) :
  uninterrupted loads (fst start) rs = true ->
  is_crashed (fst (run loads (fst start) rs)) = false /\
  sleeps (snd (run loads (fst start) rs))
  = repeat 5%Z (failures loads (fst start) rs) /\
  (forall (s : state) (r : response),
      is_crashed s = false ->
      channel_failure loads s r = true ->
      exists e : exn,
        step loads s r
        = (mkState Sleeping (data_queue s), [PrintError e; Sleep 5])) /\
  (forall (q : list pyval) (payload : string),
      step loads (mkState Sleeping q) (Returns payload)
      = (mkState Connecting q, [Connect WS_SERVER])).
Proof.
  intros Hu.
  destruct (@run_uninterrupted rs (fst start) eq_refl Hu) as [H1 H2].
  split; [exact H1|]. split; [exact H2|]. split.
  - apply step_failure.
  - reflexivity.
Qed.

End ClientFacts.

Section ClientExamples.

Import Client.

(** Three failures in a row (a refused connection, a closed
    connection, a frame that is not JSON), with one good frame in
    between. *)
Lemma reconnects_after_five_seconds_forever_witness :
  let rs := [Raises OSError; Returns ""; Returns "";
             Raises ConnectionClosed; Returns ""; Returns "";
             Returns "null"; Returns "{"; Returns ""] in
  is_crashed (fst (run loads_null (fst start) rs)) = false /\
  sleeps (snd (run loads_null (fst start) rs)) = [5; 5; 5]%Z /\
  data_queue (fst (run loads_null (fst start) rs)) = [PNone].
Proof.
  intros rs.
  destruct (@reconnects_after_five_seconds_forever loads_null rs eq_refl)
    as (H1 & H2 & _).
  split; [exact H1|]. split; [exact H2|]. reflexivity.
Defined.

(** What [except Exception] lets through does end the coroutine. *)
Lemma interrupt_leaves_the_loop :
  at_pc (fst (run loads_null (fst start) [Returns ""; Raises CancelledError]))
  = Crashed CancelledError.
Proof. reflexivity. Qed.

End ClientExamples.

(* ------------------------------------------------------------------ *)
(** * Further properties of the generator                               *)
(* ------------------------------------------------------------------ *)

Section GeneratorMore.

Import Transmitter GeneratorSpec.
Local Open Scope Q_scope.

Variables sin cos : Q -> Q.

Local Abbreviation generate_data := (generate_data sin cos).
Local Abbreviation ticks := (ticks sin cos).

Lemma bisect_pick_in (population : list string) :
  forall (weights : list Q) (x : Q) (dflt : string),
    population <> [] ->
    In (bisect_pick population weights x dflt) population.
Proof.
  induction population as [|p ps IH]; intros weights x dflt Hne;
    [contradiction|].
  destruct ps as [|p' ps'].
  - simpl. auto.
  - destruct weights as [|w ws].
    + simpl. auto.
    + cbn [bisect_pick]. destruct (ltb x w).
      * left. reflexivity.
      * right. apply (IH ws (x - w) p). discriminate.
Qed.

Lemma choices_in (population : list string) (weights : list Q) (u : Q) :
  population <> [] -> In (choices population weights u) population.
Proof. intros H. unfold choices. now apply bisect_pick_in. Qed.

Lemma generate_data_health (self : DroneDataGenerator) (d : draws) :
  known_health self ->
  known_health (fst (generate_data self d)) /\
  connection_states (fst (generate_data self d)) = connection_states self.
Proof.
  unfold known_health, Transmitter.generate_data.
  cbn [fst connection_health connection_states]. intros H.
  split; [|reflexivity].
  destruct (ltb (u_change d) 0.01); [|exact H].
  apply choices_in. intros E. rewrite E in H. contradiction.
Qed.

(** X1.  From a state whose status is one of the five states of
    [__init__], every sample of every run names one of these five
    states, with the signal strength the table gives for it. *)
Theorem status_and_strength_agree (self : DroneDataGenerator)
    (ds : list draws) :
  connection_states self = connection_states init ->
  known_health self ->
  Forall
    (fun r : DroneDataGenerator * pyval =>
       In (connection_health (fst r)) (connection_states init) /\
       getitem2 (snd r) "connection" "status"
       = inr (PStr (connection_health (fst r))) /\
       exists z : Z,
         getitem2 (snd r) "connection" "signal_strength" = inr (PInt z) /\
         In (connection_health (fst r), z) mapping)
    (ticks self ds).
Proof.
  revert self. induction ds as [|d ds IH]; intros self Hs Hk; simpl.
  - constructor.
  - destruct (generate_data_health self d Hk) as [Hk' Hs'].
    constructor.
    + assert (Hin : In (connection_health (fst (generate_data self d)))
                       (connection_states init)).
      { rewrite <- Hs, <- Hs'. exact Hk'. }
      split; [exact Hin|]. split; [reflexivity|].
      exists (_get_signal_strength
                (connection_health (fst (generate_data self d)))).
      split; [reflexivity|].
      set (h := connection_health _) in *. clearbody h.
      simpl in Hin.
      repeat (destruct Hin as [<- | Hin]; [simpl; auto 10|]).
      contradiction.
    + apply IH; [exact (eq_trans Hs' Hs) | exact Hk'].
Qed.

(** X2.  With [sin] and [cos] between -1 and 1 and the draws in their
    ranges, roll stays within 17 degrees, pitch within 12 degrees and
    altitude between 89 and 111 metres, in the generator and in the
    sample. *)
Theorem attitude_and_altitude_bounded (self : DroneDataGenerator)
    (d : draws) :
  bounded sin -> bounded cos -> in_range d ->
  let g := fst (generate_data self d) in
  let s := snd (generate_data self d) in
  -17 <= roll g <= 17 /\
  -12 <= pitch g <= 12 /\
  89 <= altitude g <= 111 /\
  (exists x, getitem2 s "imu" "roll" = inr (PFloat x) /\ -17 <= x <= 17) /\
  (exists x, getitem2 s "imu" "pitch" = inr (PFloat x) /\ -12 <= x <= 12) /\
  (exists x, getitem2 s "sensors" "altitude" = inr (PFloat x) /\
             89 <= x <= 111) /\
  (exists x, getitem2 s "gps" "altitude" = inr (PFloat x) /\
             89 <= x <= 111).
Proof.
  intros Hsin Hcos (_ & _ & Hr & Hp & _ & Ha & _).
  unfold Transmitter.generate_data. cbn [fst snd roll pitch altitude].
  set (t := time_offset self + UPDATE_INTERVAL).
  pose proof (Hsin (t / 5)) as H1. pose proof (Hcos (t / 7)) as H2.
  pose proof (Hsin (t / 15)) as H3.
  set (s5 := sin (t / 5)) in *. set (c7 := cos (t / 7)) in *.
  set (s15 := sin (t / 15)) in *. clearbody s5 c7 s15.
  set (r := 15 * s5 + u_roll d).
  set (p := 10 * c7 + u_pitch d).
  set (a := 100 + 10 * s15 + u_altitude d).
  assert (Br : inject_Z (-17) <= r <= inject_Z 17).
  { unfold r. change (inject_Z (-17)) with (-17). 
    change (inject_Z 17) with 17. lra. }
  assert (Bp : inject_Z (-12) <= p <= inject_Z 12).
  { unfold p. change (inject_Z (-12)) with (-12).
    change (inject_Z 12) with 12. lra. }
  assert (Ba : inject_Z 89 <= a <= inject_Z 111).
  { unfold a. change (inject_Z 89) with 89.
    change (inject_Z 111) with 111. lra. }
  split; [exact Br|]. split; [exact Bp|]. split; [exact Ba|].
  split; [|split; [|split]]; eexists; (split; [reflexivity|]).
  - exact (@py_round_bounds (-17) 17 r 2 Br).
  - exact (@py_round_bounds (-12) 12 p 2 Bp).
  - exact (@py_round_bounds 89 111 a 1 Ba).
  - exact (@py_round_bounds 89 111 a 1 Ba).
Qed.


Lemma after_cons (g : DroneDataGenerator) (d : draws) (ds : list draws) :
  after sin cos g (d :: ds) = after sin cos (fst (generate_data g d)) ds.
Proof. reflexivity. Qed.

(** X4.  Over [n] ticks with [sin] and [cos] between -1 and 1 and the
    draws in their ranges, the time offset grows by [n * 0.1], the
    temperature moves by at most [n * 0.1] and latitude and longitude
    by at most [n * 0.0001] each. *)
Theorem drift_is_linear (ds : list draws) :
  forall self : DroneDataGenerator,
    bounded sin -> bounded cos -> Forall in_range ds ->
    let g := after sin cos self ds in
    let n := inject_Z (Z.of_nat (List.length ds)) in
    time_offset g == time_offset self + n * UPDATE_INTERVAL /\
    temperature self - n * 0.1 <= temperature g
      <= temperature self + n * 0.1 /\
    latitude self - n * 0.0001 <= latitude g
      <= latitude self + n * 0.0001 /\
    longitude self - n * 0.0001 <= longitude g
      <= longitude self + n * 0.0001.
Proof.
  induction ds as [|d ds IH]; intros self Hsin Hcos Hr; cbv zeta.
  - cbn [after fold_left List.length]. change (inject_Z (Z.of_nat 0)) with 0.
    repeat split; lra.
  - inversion Hr as [|? ? Hd Hds]; subst.
    rewrite after_cons.
    destruct (IH (fst (generate_data self d)) Hsin Hcos Hds)
      as (T & Te & La & Lo).
    cbv zeta in *.
    set (g := after sin cos (fst (generate_data self d)) ds) in *.
    clearbody g.
    cbn [List.length]. rewrite Nat2Z.inj_succ. unfold Z.succ.
    rewrite inject_Z_plus. change (inject_Z 1) with 1.
    set (n := inject_Z (Z.of_nat (List.length ds))) in *. clearbody n.
    destruct Hd as (_ & Ht & _).
    unfold Transmitter.generate_data in *.
    cbn [fst time_offset temperature latitude longitude] in *.
    set (t := time_offset self + UPDATE_INTERVAL) in *.
    pose proof (Hsin (t / 20)) as H1. pose proof (Hcos (t / 20)) as H2.
    set (s20 := sin (t / 20)) in *. set (c20 := cos (t / 20)) in *.
    clearbody s20 c20. unfold t in *. unfold UPDATE_INTERVAL in *.
    repeat split; lra.
Qed.

End GeneratorMore.

Section GeneratorToStore.

Import Dashboard StoreSpec Transmitter.

Variables sin cos : Q -> Q.
Variable datetime : Type.
Variable fromisoformat : string -> option datetime.

Lemma generated_sample_parses (g : DroneDataGenerator) (d : draws)
    (t : datetime) :
  fromisoformat (now_isoformat d) = Some t ->
  let g' := fst (generate_data sin cos g d) in
  parse fromisoformat (snd (generate_data sin cos g d))
  = inr (mkFields t
           (PFloat (py_round (battery_voltage g') 2))
           (PFloat (py_round (temperature g') 1))
           (PFloat (py_round (altitude g') 1))
           (PFloat (py_round (roll g') 2))
           (PFloat (py_round (pitch g') 2))
           (PFloat (py_round (yaw g') 2))
           (PFloat (py_round (latitude g') 6))
           (PFloat (py_round (longitude g') 6))
           (PInt (_get_signal_strength (connection_health g')))).
Proof.
  intros Ht. cbv zeta.
  unfold parse, rbind, Transmitter.generate_data.
  cbn [snd getitem getitem2 assoc String.eqb Ascii.eqb Bool.eqb
       fromisoformat_py].
  rewrite Ht. reflexivity.
Qed.

(** X5.  Whatever the generator state and the draws, the dictionary
    [generate_data] returns is one [add_data] takes in, provided its
    timestamp parses: every read succeeds, the values read are the
    rounded fields, the call returns and makes the sample
    [latest_data], and equal lengths are kept. *)
Theorem generated_sample_is_accepted (g : DroneDataGenerator) (d : draws)
    (st : DataStore datetime) (t : datetime) :
  fromisoformat (now_isoformat d) = Some t ->
  let g' := fst (generate_data sin cos g d) in
  let sample := snd (generate_data sin cos g d) in
  parse fromisoformat sample
  = inr (mkFields t
           (PFloat (py_round (battery_voltage g') 2))
           (PFloat (py_round (temperature g') 1))
           (PFloat (py_round (altitude g') 1))
           (PFloat (py_round (roll g') 2))
           (PFloat (py_round (pitch g') 2))
           (PFloat (py_round (yaw g') 2))
           (PFloat (py_round (latitude g') 6))
           (PFloat (py_round (longitude g') 6))
           (PInt (_get_signal_strength (connection_health g')))) /\
  snd (add_data fromisoformat sample st) = inr tt /\
  latest_data (fst (add_data fromisoformat sample st)) = Some sample /\
  (equal_length st -> equal_length (fst (add_data fromisoformat sample st))).
Proof.
  intros Ht g' sample.
  pose proof (generated_sample_parses g d Ht) as Hp. cbv zeta in Hp.
  fold g' sample in Hp.
  split; [exact Hp|].
  rewrite (add_data_parsed fromisoformat sample st Hp).
  split; [reflexivity|]. split.
  - destruct st. unfold trim, push, set_latest_data. simpl.
    destruct (_ >? _)%Z; reflexivity.
  - intros He. cbn [fst]. apply trim_push_equal_length.
    destruct st. exact He.
Qed.

Lemma ticks_parsed (ds : list draws) :
  forall g : DroneDataGenerator,
    Forall (fun d => exists t, fromisoformat (now_isoformat d) = Some t) ds ->
    exists fs, parsed fromisoformat (map snd (ticks sin cos g ds)) fs.
Proof.
  induction ds as [|d ds IH]; intros g H.
  - exists []. constructor.
  - inversion H as [|? ? [t Ht] Hds]; subst.
    destruct (IH (fst (generate_data sin cos g d)) Hds) as (fs & P).
    eexists (_ :: fs). cbn [ticks map]. constructor; [|exact P].
    exact (generated_sample_parses g d Ht).
Qed.

Lemma add_all_equal_length (msgs : list pyval)
    (fs : list (fields datetime)) :
  parsed fromisoformat msgs fs ->
  forall s s' : DataStore datetime,
    add_all fromisoformat msgs s = (s', inr tt) ->
    equal_length s -> equal_length s'.
Proof.
  induction 1 as [|m f msgs fs Hp P IH]; intros s s' E He.
  - simpl in E. now injection E as <-.
  - cbn [add_all] in E. rewrite (add_data_parsed _ _ _ Hp) in E.
    apply (IH _ _ E). apply trim_push_equal_length.
    destruct s. exact He.
Qed.

Section Pipeline.

(** [json.loads] and [json.dumps]. *)
Variable loads : string -> result pyval.
Variable dumps : pyval -> string.

Lemma client_receives (vs : list pyval) :
  forall q : list pyval,
    Forall (fun v => loads (dumps v) = inr v) vs ->
    fst (Client.run loads (Client.mkState Client.Receiving q)
           (map (fun v => Client.Returns (dumps v)) vs))
    = Client.mkState Client.Receiving (q ++ vs).
Proof.
  induction vs as [|v vs IH]; intros q H.
  - simpl. now rewrite app_nil_r.
  - inversion H as [|? ? Hv Hvs]; subst.
    cbn [map Client.run]. unfold Client.step at 1.
    cbn [Client.at_pc Client.data_queue]. rewrite Hv.
    specialize (IH (q ++ [v]) Hvs).
    destruct (Client.run loads _ _) as [s2 a2]. cbn [fst] in *.
    rewrite IH, <- app_assoc. reflexivity.
Qed.

(** X18.  From generator to store: when every frame decodes to the sample
    it encodes and every timestamp parses, a client that connects and
    receives the frames of a run has exactly the samples of the run in
    its queue, in order, and [process_queue] then empties the queue
    into the store without an error, one [add_data] per sample, keeping
    the series equal in length. *)
Theorem pipeline_delivers_samples (g : DroneDataGenerator)
    (ds : list draws) (st : DataStore datetime) (n : Z) :
  let samples := map snd (ticks sin cos g ds) in
  Forall (fun d => exists t, fromisoformat (now_isoformat d) = Some t) ds ->
  Forall (fun v => loads (dumps v) = inr v) samples ->
  let client :=
    fst (Client.run loads (fst Client.start)
           (Client.Returns ""
            :: map (fun v => Client.Returns (dumps v)) samples)) in
  Client.at_pc client = Client.Receiving /\
  Client.data_queue client = samples /\
  exists st' : DataStore datetime,
    process_queue fromisoformat n (Client.data_queue client) st
    = ([], st', inr n) /\
    add_all fromisoformat samples st = (st', inr tt) /\
    (equal_length st -> equal_length st').
Proof.
  intros samples Ht Hj client.
  assert (Hc : client = Client.mkState Client.Receiving samples).
  { unfold client. cbn [Client.run Client.start fst].
    unfold Client.step at 1. cbn [Client.at_pc Client.data_queue].
    pose proof (@client_receives samples [] Hj) as H.
    destruct (Client.run loads (Client.mkState Client.Receiving []) _)
      as [s2 a2].
    exact H. }
  rewrite Hc. cbn [Client.at_pc Client.data_queue].
  split; [reflexivity|]. split; [reflexivity|].
  destruct (ticks_parsed g Ht) as (fs & P). fold samples in P.
  destruct (@add_all_parsed datetime fromisoformat samples fs st P)
    as (st' & E).
  exists st'. split; [now apply process_queue_add_all|].
  split; [exact E|]. exact (add_all_equal_length P E).
Qed.

End Pipeline.

End GeneratorToStore.

(* ------------------------------------------------------------------ *)
(** * Further properties of the store                                   *)
(* ------------------------------------------------------------------ *)

Section StoreMore.

Import Dashboard StoreSpec.

Variable datetime : Type.
Variable fromisoformat : string -> option datetime.

Local Abbreviation DataStore := (DataStore datetime).
Local Abbreviation parse := (parse fromisoformat).
Local Abbreviation add_data := (add_data fromisoformat).
Local Abbreviation add_all := (add_all fromisoformat).
Local Abbreviation process_queue := (process_queue fromisoformat).

Lemma lastn_map {A B : Type} (f : A -> B) (n : nat) (l : list A) :
  lastn n (map f l) = map f (lastn n l).
Proof. unfold lastn. now rewrite length_map, skipn_map. Qed.

(** X6.  In a store of capacity [N > 0] fed well-formed messages from
    empty, the ten series are the ten projections of one list, the
    last [N] messages in arrival order: entry [i] of every series
    comes from the same message. *)
Theorem series_are_aligned (N : Z) (msgs : list pyval)
    (fs : list (fields datetime)) :
  (0 < N)%Z ->
  parsed fromisoformat msgs fs ->
  exists st : DataStore,
    add_all msgs (empty datetime N) = (st, inr tt) /\
    let kept := lastn (Z.to_nat N) fs in
    timestamps st = map (@f_timestamp datetime) kept /\
    battery_voltage st = map (@f_voltage datetime) kept /\
    temperature st = map (@f_temperature datetime) kept /\
    altitude st = map (@f_altitude datetime) kept /\
    roll st = map (@f_roll datetime) kept /\
    pitch st = map (@f_pitch datetime) kept /\
    yaw st = map (@f_yaw datetime) kept /\
    latitude st = map (@f_latitude datetime) kept /\
    longitude st = map (@f_longitude datetime) kept /\
    connection_strength st = map (@f_signal datetime) kept.
Proof.
  intros HN P.
  destruct (@add_all_window datetime fromisoformat (Z.to_nat N) ltac:(lia)
              msgs fs [] (empty datetime N) P)
    as (st & E & _ & W & _).
  { simpl. lia. }
  { apply window_empty. }
  exists st. split; [exact E|]. cbv zeta.
  simpl in W. unfold window in W. rewrite <- !lastn_map. exact W.
Qed.

Lemma add_data_negative (f : fields datetime) (data : pyval)
    (s : DataStore) :
  parse data = inr f ->
  (max_points s < 0)%Z ->
  all_length s 0 ->
  exists s',
    add_data data s = (s', inr tt) /\
    max_points s' = max_points s /\
    all_length s' 0 /\
    latest_data s' = Some data.
Proof.
  intros Hp Hm L. rewrite (add_data_parsed _ _ _ Hp).
  eexists; split; [reflexivity|].
  destruct s as [m l0 l1 l2 l3 l4 l5 l6 l7 l8 l9 ld].
  unfold all_length in *. simpl in Hm, L.
  repeat match goal with H : _ /\ _ |- _ => destruct H as [? H] end.
  repeat match goal with
         | H : List.length ?l = 0%nat |- _ =>
             apply length_zero_iff_nil in H; subst l
         end.
  unfold trim, push, set_latest_data. simpl.
  destruct (Z.gtb_spec 1 m) as [C|C]; [|lia].
  simpl. unfold slice_from. simpl.
  destruct (- m <? 0)%Z eqn:C2; [apply Z.ltb_lt in C2; lia|].
  replace (Z.to_nat (Z.min (- m) 1)) with 1%nat by lia.
  simpl. repeat split.
Qed.

(** X7.  A store constructed with a negative capacity keeps no history:
    after any sequence of well-formed messages every series is empty,
    while [latest_data] is the last message. *)
Theorem negative_capacity_keeps_nothing (N : Z) (msgs : list pyval)
    (fs : list (fields datetime)) :
  (N < 0)%Z ->
  parsed fromisoformat msgs fs ->
  exists st : DataStore,
    add_all msgs (empty datetime N) = (st, inr tt) /\
    all_length st 0 /\
    latest_data st = last (map Some msgs) None.
Proof.
  intros HN P.
  assert (G : forall s : DataStore,
             max_points s = N -> all_length s 0 ->
             exists st, add_all msgs s = (st, inr tt) /\ all_length st 0 /\
                        latest_data st = last (map Some msgs) (latest_data s)).
  { induction P as [|m f msgs fs Hp P IH]; intros s Hm L.
    - exists s. simpl. auto.
    - destruct (@add_data_negative f m s Hp ltac:(lia) L)
        as (s1 & E1 & Hm1 & L1 & Ld1).
      destruct (IH s1 ltac:(congruence) L1) as (s2 & E2 & L2 & Ld2).
      exists s2. cbn [StoreSpec.add_all]. rewrite E1, E2.
      split; [reflexivity|]. split; [exact L2|].
      rewrite Ld2, Ld1. cbn [map]. now rewrite last_cons. }
  apply G; [reflexivity|]. unfold all_length. simpl. repeat split.
Qed.

Lemma add_data_outcome (data : pyval) (s : DataStore) :
  (exists f, parse data = inr f /\ snd (add_data data s) = inr tt) \/
  (exists e, parse data = inl e /\ snd (add_data data s) = inl e).
Proof.
  destruct (parse data) as [e|f] eqn:E.
  - right. exists e. split; [reflexivity|].
    now destruct (add_data_raises fromisoformat data s E) as [H _].
  - left. exists f. split; [reflexivity|].
    now rewrite (add_data_parsed _ _ _ E).
Qed.

(** X8.  [process_queue] takes messages off the queue up to and
    including the first one [add_data] raises on: when it returns [n]
    the queue is empty and every message was well formed; when it
    raises, what it took is a run of well-formed messages followed by
    the one message whose read failed, and the rest is still queued. *)
Theorem process_queue_stops_at_first_bad (n : Z) (q : list pyval) :
  forall s : DataStore,
    exists done : list pyval,
      q = done ++ fst (fst (process_queue n q s)) /\
      match snd (process_queue n q s) with
      | inr m =>
          m = n /\
          fst (fst (process_queue n q s)) = [] /\
          Forall (fun m => well_formed fromisoformat m = true) done /\
          add_all done s = (snd (fst (process_queue n q s)), inr tt)
      | inl e =>
          exists (good : list pyval) (bad : pyval) (s1 : DataStore),
            done = good ++ [bad] /\
            Forall (fun m => well_formed fromisoformat m = true) good /\
            parse bad = inl e /\
            add_all good s = (s1, inr tt) /\
            add_data bad s1 = (snd (fst (process_queue n q s)), inl e)
      end.
Proof.
  induction q as [|m q IH]; intros s.
  - exists []. simpl. auto.
  - cbn [Dashboard.process_queue].
    destruct (add_data_outcome m s) as [(f & Hp & Ho) | (e & Hp & Ho)];
      destruct (add_data m s) as [s1 [e1|[]]] eqn:E; simpl in Ho;
      try discriminate.
    + destruct (IH s1) as (done & Hq & H).
      exists (m :: done). split; [simpl; congruence|].
      assert (Hw : well_formed fromisoformat m = true)
        by (unfold well_formed; now rewrite Hp).
      destruct (snd (process_queue n q s1)) as [e|k].
      * destruct H as (good & bad & s2 & -> & Hg & Hb & Ha & Hd).
        exists (m :: good), bad, s2.
        split; [reflexivity|]. split; [now constructor|].
        split; [exact Hb|]. split; [|exact Hd].
        cbn [StoreSpec.add_all]. now rewrite E.
      * destruct H as (-> & Hl & Hg & Ha).
        split; [reflexivity|]. split; [exact Hl|].
        split; [now constructor|].
        cbn [StoreSpec.add_all]. now rewrite E.
    + injection Ho as ->.
      exists [m]. split; [reflexivity|]. simpl.
      exists [], m, s. repeat split; auto.
Qed.

End StoreMore.

(* ------------------------------------------------------------------ *)
(** * Properties of the callbacks                                       *)
(* ------------------------------------------------------------------ *)

Section ViewFacts.

Import Dashboard StoreSpec Views.

Variable datetime : Type.
Variable fromisoformat : string -> option datetime.
Variable strftime : datetime -> string.
Variable format : pyval -> string.

Local Abbreviation DataStore := (DataStore datetime).

(** X9.  [update_connection_status] shows the status it is given; the
    text is black on the backgrounds of Excellent, Good and Fair and
    white otherwise; a status outside the five known ones gets the
    grey background, a known one never does. *)
Theorem connection_status_style (st : DataStore) (n : Z) (latest : pyval)
    (status : string) :
  latest_data st = Some latest ->
  getitem2 latest "connection" "status" = inr (PStr status) ->
  exists bg fg : string,
    update_connection_status st n
    = inr (PStr status, [("backgroundColor", bg); ("color", fg)]) /\
    (In status ["Excellent"; "Good"; "Fair"] ->
     fg = "#000000" /\ In bg ["#4CAF50"; "#8BC34A"; "#FFC107"]) /\
    (~ In status ["Excellent"; "Good"; "Fair"] -> fg = "#FFFFFF") /\
    (In status ["Excellent"; "Good"; "Fair"; "Poor"; "No Signal"] <->
     bg <> "#555555").
Proof.
  clear fromisoformat strftime format.
  intros Hl Hs. unfold update_connection_status. rewrite Hl, Hs.
  cbn [dict_get is_in lookup existsb].
  destruct (String.eqb_spec status "Excellent") as [->|N1];
    [|destruct (String.eqb_spec status "Good") as [->|N2];
      [|destruct (String.eqb_spec status "Fair") as [->|N3];
        [|destruct (String.eqb_spec status "Poor") as [->|N4];
          [|destruct (String.eqb_spec status "No Signal") as [->|N5]]]]];
    (do 2 eexists; split; [reflexivity|]);
    (split; [|split; [|split]]); intros HH; simpl in *;
    intuition (try discriminate; try congruence).
Qed.

(** X10.  [update_battery_indicator] on a numeric percentage puts black
    text on the green, light green and amber backgrounds and white text
    on the orange and red ones, and chooses red exactly when the
    percentage is not above 10; on a percentage that is not a number
    it raises [TypeError]. *)
Theorem battery_indicator_contrast (st : DataStore) (n : Z)
    (latest voltage percentage : pyval) :
  latest_data st = Some latest ->
  getitem2 latest "battery" "voltage" = inr voltage ->
  getitem2 latest "battery" "percentage" = inr percentage ->
  match gt percentage 10 with
  | inr above_10 =>
      exists bg fg : string,
        update_battery_indicator format st n
        = inr ((format voltage ++ "V (" ++ format percentage ++ "%)")%string,
               [("backgroundColor", bg); ("color", fg)]) /\
        (fg = "#000000" /\ In bg ["#4CAF50"; "#8BC34A"; "#FFC107"] \/
         fg = "#FFFFFF" /\ In bg ["#FF9800"; "#F44336"]) /\
        (bg = "#F44336" <-> above_10 = false)
  | inl e =>
      e = TypeError /\ update_battery_indicator format st n = inl TypeError
  end.
Proof.
  intros Hl Hv Hp. unfold update_battery_indicator. rewrite Hl, Hv, Hp.
  destruct percentage as [ |b|z|q|s|l|kv]; cbn [gt]; try (split; reflexivity).
  - destruct b; cbn; do 2 eexists; (split; [reflexivity|]);
      (split; [simpl; auto 10 | split; congruence]).
  - destruct (Z.ltb_spec 75 z), (Z.ltb_spec 50 z), (Z.ltb_spec 25 z),
      (Z.ltb_spec 10 z); try lia;
      do 2 eexists; (split; [reflexivity|]);
      (split; [simpl; auto 10 | split; congruence]).
  - destruct (Transmitter.ltb (inject_Z 75) q) eqn:C1,
             (Transmitter.ltb (inject_Z 50) q) eqn:C2,
             (Transmitter.ltb (inject_Z 25) q) eqn:C3,
             (Transmitter.ltb (inject_Z 10) q) eqn:C4;
      try (do 2 eexists; (split; [reflexivity|]);
           (split; [simpl; auto 10 | split; congruence]); fail);
      exfalso;
      repeat match goal with
             | H : Transmitter.ltb _ _ = true |- _ => apply ltb_true in H
             | H : Transmitter.ltb _ _ = false |- _ => apply ltb_false in H
             end;
      change (inject_Z 75) with (75 # 1)%Q in *;
      change (inject_Z 50) with (50 # 1)%Q in *;
      change (inject_Z 25) with (25 # 1)%Q in *;
      change (inject_Z 10) with (10 # 1)%Q in *; lra.
Qed.

Lemma last_item_nil {A : Type} (l : list A) :
  last_item l = inl IndexError <-> l = [].
Proof.
  unfold last_item. split.
  - destruct (rev l) eqn:E; [|discriminate]. intros _.
    apply (f_equal (@rev A)) in E. now rewrite rev_involutive in E.
  - intros ->. reflexivity.
Qed.

Lemma last_item_snoc {A : Type} (l : list A) (x : A) :
  last_item (l ++ [x]) = inr x.
Proof. unfold last_item. now rewrite rev_app_distr. Qed.



Lemma lastn_snoc {A : Type} (n : nat) (l : list A) (x : A) :
  (0 < n)%nat -> lastn n (l ++ [x]) = lastn (n - 1) l ++ [x].
Proof.
  intros Hn. unfold lastn. rewrite length_app. simpl.
  rewrite skipn_app.
  replace (List.length l + 1 - n)%nat with (List.length l - (n - 1))%nat
    by lia.
  replace (List.length l - (n - 1) - List.length l)%nat with 0%nat by lia.
  reflexivity.
Qed.

Lemma parsed_truthy (data : pyval) (f : fields datetime) :
  parse fromisoformat data = inr f -> truthy data = true.
Proof.
  unfold parse, rbind, getitem.
  destruct data as [ | | | | | |kv]; try discriminate.
  destruct kv; [discriminate | reflexivity].
Qed.

(** X12.  In a store of positive capacity that has taken at least one
    well-formed message from empty, [update_gps_map] returns: the path
    is the latitude and longitude series, and the marker and the centre
    of the map are at the position of the last message. *)
Theorem gps_map_follows_last_message (N n : Z) (msgs : list pyval)
    (fs : list (fields datetime)) (f : fields datetime) :
  (0 < N)%Z ->
  parsed fromisoformat msgs (fs ++ [f]) ->
  exists st : DataStore,
    add_all fromisoformat msgs (empty datetime N) = (st, inr tt) /\
    update_gps_map st n
    = inr (mkGps
             [mkTrace "Path" (latitude st) (longitude st);
              mkTrace "Current Position" [f_latitude f] [f_longitude f]]
             (f_latitude f) (f_longitude f)).
Proof.
  intros HN P.
  destruct (@add_all_window datetime fromisoformat (Z.to_nat N) ltac:(lia)
              msgs (fs ++ [f]) [] (empty datetime N) P)
    as (st & E & _ & W & L).
  { simpl. lia. }
  { apply window_empty. }
  exists st. split; [exact E|].
  cbn [app] in W. unfold window in W.
  destruct W as (_ & _ & _ & _ & _ & _ & _ & Wla & Wlo & _).
  rewrite map_app in Wla, Wlo. cbn [map] in Wla, Wlo.
  rewrite lastn_snoc in Wla, Wlo by lia.
  assert (Hlast : exists m, latest_data st = Some m /\ truthy m = true).
  { rewrite L. clear - P.
    destruct (exists_last (l:=msgs)) as (ms & m & ->).
    { intros ->. apply Forall2_length in P.
      rewrite length_app in P. simpl in P. lia. }
    exists m. rewrite map_app. simpl.
    split.
    - generalize (map Some ms). intros l. simpl.
      induction l as [|a l IH]; [reflexivity|].
      simpl. destruct (l ++ [Some m]) eqn:E; [|exact IH].
      now destruct l.
    - apply Forall2_app_inv_l in P as (f1 & f2 & _ & P2 & _).
      inversion P2 as [|? ? ? ? Hm _]; subst.
      exact (parsed_truthy _ Hm). }
  destruct Hlast as (m & Hm & Tm).
  unfold update_gps_map. rewrite Hm, Tm, Wla, Wlo.
  rewrite !last_item_snoc.
  replace (0 <? Z.of_nat (List.length _))%Z with true
    by (symmetry; apply Z.ltb_lt; rewrite length_app; simpl; lia).
  reflexivity.
Qed.

Ltac no_read :=
  split;
  [ first [ discriminate | intros [? ?]; discriminate ]
  | intros H;
    repeat match goal with
           | H : _ /\ _ |- _ => destruct H
           | H : reads _ _ _ |- _ => destruct H
           | H : timestamp_parses _ _ |- _ => destruct H as (? & ? & ? & ?)
           end;
    congruence ].

Lemma well_formed_reads (data : pyval) :
  well_formed fromisoformat data = true <->
  timestamp_parses fromisoformat data /\
  reads data "battery" "voltage" /\
  reads data "sensors" "temperature" /\
  reads data "sensors" "altitude" /\
  reads data "imu" "roll" /\
  reads data "imu" "pitch" /\
  reads data "imu" "yaw" /\
  reads data "gps" "latitude" /\
  reads data "gps" "longitude" /\
  reads data "connection" "signal_strength".
Proof.
  unfold well_formed, parse, rbind.
  destruct (getitem data "timestamp") as [|ts] eqn:E0; [no_read|].
  destruct (fromisoformat_py fromisoformat ts) as [|t] eqn:E1; [no_read|].
  destruct (getitem2 data "battery" "voltage") eqn:E2; [no_read|].
  destruct (getitem2 data "sensors" "temperature") eqn:E3; [no_read|].
  destruct (getitem2 data "sensors" "altitude") eqn:E4; [no_read|].
  destruct (getitem2 data "imu" "roll") eqn:E5; [no_read|].
  destruct (getitem2 data "imu" "pitch") eqn:E6; [no_read|].
  destruct (getitem2 data "imu" "yaw") eqn:E7; [no_read|].
  destruct (getitem2 data "gps" "latitude") eqn:E8; [no_read|].
  destruct (getitem2 data "gps" "longitude") eqn:E9; [no_read|].
  destruct (getitem2 data "connection" "signal_strength") eqn:E10;
    [no_read|].
  split; [intros _|reflexivity].
  unfold reads, timestamp_parses. repeat split; eauto.
Qed.

Lemma telemetry_reads (st : DataStore) (n : Z) (data : pyval) :
  latest_data st = Some data ->
  (exists rows,
      update_telemetry_data fromisoformat strftime format st n
      = inr (inr rows)) <->
  reads data "battery" "voltage" /\
  reads data "battery" "percentage" /\
  reads data "sensors" "temperature" /\
  reads data "sensors" "altitude" /\
  reads data "imu" "roll" /\
  reads data "imu" "pitch" /\
  reads data "imu" "yaw" /\
  reads data "gps" "latitude" /\
  reads data "gps" "longitude" /\
  reads data "connection" "status" /\
  reads data "connection" "signal_strength" /\
  timestamp_parses fromisoformat data.
Proof.
  intros Hl. unfold update_telemetry_data. rewrite Hl.
  destruct (getitem2 data "battery" "voltage") eqn:E1; [no_read|].
  destruct (getitem2 data "battery" "percentage") eqn:E2; [no_read|].
  destruct (getitem2 data "sensors" "temperature") eqn:E3; [no_read|].
  destruct (getitem2 data "sensors" "altitude") eqn:E4; [no_read|].
  destruct (getitem2 data "imu" "roll") eqn:E5; [no_read|].
  destruct (getitem2 data "imu" "pitch") eqn:E6; [no_read|].
  destruct (getitem2 data "imu" "yaw") eqn:E7; [no_read|].
  destruct (getitem2 data "gps" "latitude") eqn:E8; [no_read|].
  destruct (getitem2 data "gps" "longitude") eqn:E9; [no_read|].
  destruct (getitem2 data "connection" "status") eqn:E10; [no_read|].
  destruct (getitem2 data "connection" "signal_strength") eqn:E11;
    [no_read|].
  destruct (getitem data "timestamp") as [|ts] eqn:E12; [no_read|].
  destruct (fromisoformat_py fromisoformat ts) as [|t] eqn:E13; [no_read|].
  split; [intros _|eauto].
  unfold reads, timestamp_parses. repeat split; eauto.
Qed.

(** X13.  [update_telemetry_data] returns its rows exactly for the latest
    messages that [add_data] takes in without error and that also
    carry [battery.percentage] and [connection.status], two fields
    [add_data] never reads. *)
Theorem telemetry_needs_more_than_the_store (st : DataStore) (n : Z)
    (data : pyval) :
  latest_data st = Some data ->
  (exists rows,
      update_telemetry_data fromisoformat strftime format st n
      = inr (inr rows)) <->
  well_formed fromisoformat data = true /\
  reads data "battery" "percentage" /\
  reads data "connection" "status".
Proof.
  intros Hl. rewrite (telemetry_reads st n Hl), well_formed_reads. tauto.
Qed.

(** X14.  In a store whose series have equal length, every trace of the
    IMU chart and of the altitude and temperature chart has as many x
    values as y values; both charts have no trace when the store holds
    no timestamp. *)
Theorem chart_traces_are_aligned (st : DataStore) (n : Z) :
  equal_length st ->
  Forall (fun t => List.length (xs t) = List.length (ys t))
    (update_imu_chart strftime st n ++ update_alt_temp_chart strftime st n)
  /\ (timestamps st = [] ->
      update_imu_chart strftime st n = [] /\
      update_alt_temp_chart strftime st n = []).
Proof.
  intros E. unfold equal_length in E. cbv zeta in E.
  destruct E as (E1 & E2 & E3 & E4 & E5 & E6 & _).
  unfold update_imu_chart, update_alt_temp_chart. split.
  - destruct (latest_data st); [|constructor].
    destruct (0 <? _)%Z; [|constructor].
    repeat constructor; cbn [xs ys]; rewrite length_map; congruence.
  - intros ->. destruct (latest_data st); split; reflexivity.
Qed.

End ViewFacts.

(* ------------------------------------------------------------------ *)
(** * Further properties of the pose transform                          *)
(* ------------------------------------------------------------------ *)

Section PoseMore.

Import Pose.
Local Open Scope R_scope.

Lemma vec_eq (a0 a1 a2 b0 b1 b2 : R) :
  a0 = b0 -> a1 = b1 -> a2 = b2 -> (a0, a1, a2) = (b0, b1, b2).
Proof. now intros -> -> ->. Qed.

(** The matrix [rotation_matrix] builds from [a] and [(b, c, d)]. *)
Lemma quaternion_matrix_dot (a b c d : R) (v w : vec) :
  a * a + b * b + c * c + d * d = 1 ->
  let M : mat :=
    ((a * a + b * b - c * c - d * d, 2 * (b * c + a * d),
      2 * (b * d - a * c)),
     (2 * (b * c - a * d), a * a + c * c - b * b - d * d,
      2 * (c * d + a * b)),
     (2 * (b * d + a * c), 2 * (c * d - a * b),
      a * a + d * d - b * b - c * c)) in
  dot (apply M v) (apply M w) = dot v w.
Proof.
  intros H. destruct v as [[v0 v1] v2], w as [[w0 w1] w2].
  cbv zeta. unfold apply, dot.
  transitivity ((a * a + b * b + c * c + d * d) *
                (a * a + b * b + c * c + d * d) *
                (v0 * w0 + v1 * w1 + v2 * w2)); [ring|].
  rewrite H. ring.
Qed.

Lemma rotation_matrix_isometry (axis : vec) (theta : R) (v w : vec) :
  dot axis axis <> 0 ->
  dot (apply (rotation_matrix axis theta) v)
      (apply (rotation_matrix axis theta) w) = dot v w /\
  apply (rotation_matrix axis theta) axis = axis.
Proof.
  intros Hne. destruct axis as [[x y] z].
  assert (Hpos : 0 < dot (x, y, z) (x, y, z)).
  { unfold dot in *. nra. }
  pose proof (sqrt_lt_R0 _ Hpos) as Hn.
  pose proof (sqrt_sqrt _ (Rlt_le _ _ Hpos)) as Hnn.
  unfold rotation_matrix.
  set (n := sqrt (dot (x, y, z) (x, y, z))) in *.
  assert (Hu : x / n * (x / n) + y / n * (y / n) + z / n * (z / n) = 1).
  { unfold dot in Hnn.
    transitivity ((x * x + y * y + z * z) / (n * n)); [field; lra|].
    rewrite Hnn. field. unfold dot in Hpos. lra. }
  pose proof (sin_cos_one (theta / 2)) as Hsc.
  set (s := sin (theta / 2)) in *. set (c := cos (theta / 2)) in *.
  assert (Hx : x = x / n * n) by (field; lra).
  assert (Hy : y = y / n * n) by (field; lra).
  assert (Hz : z = z / n * n) by (field; lra).
  set (ux := x / n) in *. set (uy := y / n) in *. set (uz := z / n) in *.
  clearbody ux uy uz s c.
  assert (Hq : c * c + - ux * s * (- ux * s) + - uy * s * (- uy * s)
               + - uz * s * (- uz * s) = 1).
  { transitivity (c * c + s * s * (ux * ux + uy * uy + uz * uz)); [ring|].
    rewrite Hu. lra. }
  assert (K : c * c + s * s * (ux * ux + uy * uy + uz * uz) = 1)
    by (rewrite Hu; lra).
  split.
  - exact (@quaternion_matrix_dot c (- ux * s) (- uy * s) (- uz * s) v w Hq).
  - clearbody n. subst x y z. unfold apply, dot.
    apply vec_eq.
    + transitivity (ux * n * (c * c + s * s * (ux * ux + uy * uy + uz * uz)));
        [ring | rewrite K; ring].
    + transitivity (uy * n * (c * c + s * s * (ux * ux + uy * uy + uz * uz)));
        [ring | rewrite K; ring].
    + transitivity (uz * n * (c * c + s * s * (ux * ux + uy * uy + uz * uz)));
        [ring | rewrite K; ring].
Qed.

Lemma apply_mat_dot (a b : mat) (v : vec) :
  apply (mat_dot a b) v = apply a (apply b v).
Proof.
  destruct a as [[[[a00 a01] a02] [[a10 a11] a12]] [[a20 a21] a22]].
  destruct b as [[[[b00 b01] b02] [[b10 b11] b12]] [[b20 b21] b22]].
  destruct v as [[v0 v1] v2].
  unfold apply, mat_dot, col, dot. apply vec_eq; ring.
Qed.

(** X15.  For every axis other than the zero vector and every angle,
    [rotation_matrix] gives a matrix that keeps inner products (so
    lengths and angles) and leaves the axis itself where it is. *)
Theorem rotation_matrix_is_a_rotation (axis : vec) (theta : R)
    (v w : vec) :
  dot axis axis <> 0 ->
  dot (apply (rotation_matrix axis theta) v)
      (apply (rotation_matrix axis theta) w) = dot v w /\
  apply (rotation_matrix axis theta) axis = axis.
Proof. apply rotation_matrix_isometry. Qed.

(** X16.  For every roll, pitch and yaw the pose matrix keeps inner
    products, so every vertex of the body and of the arms stays as far
    from the centre as it was: the drawn drone is turned, never
    stretched. *)
Theorem pose_is_rigid (roll pitch yaw : R) :
  let M := rotation roll pitch yaw in
  let g := rotated_geometry roll pitch yaw in
  (forall v w : vec, dot (apply M v) (apply M w) = dot v w) /\
  Forall2 (fun p q => dot p p = dot q q) (body_rotated g) body_points /\
  Forall2 (fun p q => dot p p = dot q q) (arm_front_rotated g) arm_front /\
  Forall2 (fun p q => dot p p = dot q q) (arm_back_rotated g) arm_back /\
  Forall2 (fun p q => dot p p = dot q q) (arm_right_rotated g) arm_right /\
  Forall2 (fun p q => dot p p = dot q q) (arm_left_rotated g) arm_left.
Proof.
  cbv zeta.
  assert (Hz : dot (0, 0, 0.75) (0, 0, 0.75) <> 0) by (unfold dot; lra).
  assert (Hy : dot (0, 0.75, 0) (0, 0.75, 0) <> 0) by (unfold dot; lra).
  assert (Hx : dot (0.75, 0, 0) (0.75, 0, 0) <> 0) by (unfold dot; lra).
  assert (Hiso : forall v w : vec,
             dot (apply (rotation roll pitch yaw) v)
                 (apply (rotation roll pitch yaw) w) = dot v w).
  { intros v w. unfold rotation. cbv zeta. rewrite !apply_mat_dot.
    unfold R_z, R_y, R_x.
    rewrite (proj1 (@rotation_matrix_isometry _ _ _ _ Hz)).
    rewrite (proj1 (@rotation_matrix_isometry _ _ _ _ Hy)).
    exact (proj1 (@rotation_matrix_isometry _ _ _ _ Hx)). }
  split; [exact Hiso|].
  assert (Hmap : forall pts : list vec,
             Forall2 (fun p q => dot p p = dot q q)
               (points_dot pts (transpose (rotation roll pitch yaw))) pts).
  { intros pts. rewrite points_dot_transpose.
    induction pts as [|p pts IH]; simpl; constructor; [apply Hiso | exact IH]. }
  unfold rotated_geometry.
  cbn [body_rotated arm_front_rotated arm_back_rotated arm_right_rotated
       arm_left_rotated].
  repeat split; apply Hmap.
Qed.

End PoseMore.

(* ------------------------------------------------------------------ *)
(** * Properties of the transmitting handler                            *)
(* ------------------------------------------------------------------ *)

Section ServerFacts.

Import Transmitter GeneratorSpec Server.

Variables sin cos : Q -> Q.
Variable dumps : pyval -> string.
Variable draws_at : nat -> draws.

Local Abbreviation step := (step sin cos dumps draws_at).
Local Abbreviation run := (run sin cos dumps draws_at).
Local Abbreviation ticks := (Transmitter.ticks sin cos).

Lemma frames_app (a b : list action) : frames (a ++ b) = frames a ++ frames b.
Proof. unfold frames. apply flat_map_app. Qed.

Lemma pauses_app (a b : list action) : pauses (a ++ b) = pauses a ++ pauses b.
Proof. unfold pauses. apply flat_map_app. Qed.

(** From any state: the frames of a run are those of the calls of
    [generate_data] made during it. *)
Lemma run_frames (rs : list Client.response) :
  forall s : state,
    let s' := fst (run s rs) in
    let log := snd (run s rs) in
    let ds := map draws_at (seq (calls s) (calls s' - calls s)) in
    (calls s <= calls s')%nat /\
    frames log = map dumps (map snd (ticks (drone s) ds)) /\
    drone s' = after sin cos (drone s) ds /\
    Forall (fun t => t = UPDATE_INTERVAL) (pauses log).
Proof.
  induction rs as [|r rs IH]; intros s; cbv zeta.
  - cbn [Server.run fst snd]. rewrite Nat.sub_diag. simpl. auto.
  - cbn [Server.run].
    destruct (step s r) as [s1 a1] eqn:E1.
    specialize (IH s1). cbv zeta in IH.
    destruct (run s1 rs) as [s2 a2]. cbn [fst snd] in *.
    destruct IH as (Hc & Hf & Hd & Hp).
    rewrite frames_app, pauses_app.
    unfold Server.step in E1.
    destruct (at_pc s) as [ | | |e0] eqn:Epc; destruct r as [payload|e].
    + (* send returned *)
      injection E1 as <- <-. cbn [calls drone frames pauses flat_map app] in *.
      repeat split; auto.
    + unfold handler in E1.
      destruct e; injection E1 as <- <-;
        cbn [calls drone frames pauses flat_map app] in *;
        repeat split; auto.
    + (* sleep returned: the next sample is sent *)
      unfold send_next in E1.
      destruct (generate_data sin cos (drone s) (draws_at (calls s)))
        as [g data] eqn:Eg.
      injection E1 as <- <-. cbn [calls drone] in *.
      replace (calls s2 - calls s)%nat with (S (calls s2 - S (calls s)))
        by lia.
      cbn [seq map Transmitter.ticks]. rewrite after_cons, Eg.
      cbn [fst snd map frames pauses flat_map app].
      fold (frames a2). fold (pauses a2).
      repeat split; auto; try lia. now rewrite Hf.
    + unfold handler in E1.
      destruct e; injection E1 as <- <-;
        cbn [calls drone frames pauses flat_map app] in *;
        repeat split; auto.
    + injection E1 as <- <-. cbn [frames pauses flat_map app].
      repeat split; auto.
    + injection E1 as <- <-. cbn [frames pauses flat_map app].
      repeat split; auto.
    + injection E1 as <- <-. cbn [frames pauses flat_map app].
      repeat split; auto.
    + injection E1 as <- <-. cbn [frames pauses flat_map app].
      repeat split; auto.
Qed.

Lemma run_never_fails_closed (rs : list Client.response) :
  forall (s : state) (e : exn),
    at_pc (fst (run s rs)) = Failed e ->
    at_pc s = Failed e \/ e <> ConnectionClosed.
Proof.
  induction rs as [|r rs IH]; intros s e; cbn [Server.run].
  - simpl. auto.
  - destruct (step s r) as [s1 a1] eqn:E1.
    specialize (IH s1 e). destruct (run s1 rs) as [s2 a2].
    cbn [fst] in *. intros H. destruct (IH H) as [H1|H1]; [|auto].
    unfold Server.step, handler, send_next in E1.
    destruct (at_pc s) as [ | | |e0] eqn:Epc; destruct r as [payload|e1];
      try destruct (generate_data _ _ _ _);
      try destruct e1; injection E1 as <- _; cbn [at_pc] in H1;
      try discriminate; try (injection H1 as <-; right; discriminate);
      left; congruence.
Qed.

(** X17.  On one connection, whatever the answers of the socket: the
    frames sent are, in order, [json.dumps] of the samples a generator
    started from its initial state produces, one per call made; the
    handler keeps that generator; every pause asked for is
    [UPDATE_INTERVAL]; and the handler is never left by a
    [ConnectionClosed]. *)
Theorem connection_sends_the_ticks (rs : list Client.response) :
  let s := fst (connection sin cos dumps draws_at rs) in
  let log := snd (connection sin cos dumps draws_at rs) in
  let ds := map draws_at (seq 0 (calls s)) in
  (1 <= calls s)%nat /\
  frames log = map dumps (map snd (ticks init ds)) /\
  drone s = after sin cos init ds /\
  Forall (fun t => t = UPDATE_INTERVAL) (pauses log) /\
  at_pc s <> Failed ConnectionClosed.
Proof.
  cbv zeta. unfold connection, start, send_next. cbn [drone calls].
  destruct (generate_data sin cos init (draws_at 0)) as [g data] eqn:Eg.
  pose proof (run_frames rs (mkState g 1 Sending)) as H.
  pose proof (@run_never_fails_closed rs (mkState g 1 Sending)
                ConnectionClosed) as HF.
  cbv zeta in H.
  destruct (run (mkState g 1 Sending) rs) as [s a]. cbn [fst snd] in *.
  cbn [calls drone] in H. destruct H as (Hc & Hf & Hd & Hp).
  split; [exact Hc|].
  replace (calls s) with (S (calls s - 1)) at 1 2 by lia.
  cbn [seq map Transmitter.ticks]. rewrite after_cons, Eg.
  cbn [fst snd map]. rewrite frames_app, pauses_app.
  cbn [frames pauses flat_map app]. fold (frames a). fold (pauses a).
  split; [now rewrite Hf|]. split; [exact Hd|]. split; [exact Hp|].
  intros E. destruct (HF E) as [H1|H1]; [discriminate | congruence].
Qed.

End ServerFacts.

(* ------------------------------------------------------------------ *)
(** * Instances of the further properties                               *)
(* ------------------------------------------------------------------ *)

Section MoreExamples.

Import Dashboard StoreSpec Views Transmitter GeneratorSpec.
Local Open Scope Q_scope.

Lemma flat_bounded : bounded flat.
Proof. intros x. unfold flat. split; discriminate. Qed.

Lemma quiet_in_range (now : string) : in_range (quiet now).
Proof. unfold in_range, quiet. simpl. repeat split; discriminate. Qed.

Lemma status_and_strength_agree_witness :
  Forall
    (fun r : DroneDataGenerator * pyval =>
       In (connection_health (fst r)) (connection_states init) /\
       getitem2 (snd r) "connection" "status"
       = inr (PStr (connection_health (fst r))) /\
       exists z : Z,
         getitem2 (snd r) "connection" "signal_strength" = inr (PInt z) /\
         In (connection_health (fst r), z) mapping)
    (ticks flat flat init
       [quiet "2025-01-01T00:00:00";
        mkDraws "2025-01-01T00:00:01" 0 0 0 0 0 0 0 0.95]).
Proof.
  apply (@status_and_strength_agree flat flat init).
  - reflexivity.
  - unfold known_health. simpl. auto.
Defined.

Lemma attitude_and_altitude_bounded_witness :
  -17 <= roll (fst (generate_data flat flat init (quiet "t"))) <= 17.
Proof.
  exact (proj1 (@attitude_and_altitude_bounded flat flat init (quiet "t")
                  flat_bounded flat_bounded (quiet_in_range "t"))).
Defined.


Lemma drift_is_linear_witness :
  time_offset (after flat flat init [quiet "a"; quiet "b"])
  == time_offset init + inject_Z 2 * UPDATE_INTERVAL.
Proof.
  refine (proj1 (@drift_is_linear flat flat [quiet "a"; quiet "b"] init
                   flat_bounded flat_bounded _)).
  repeat (apply Forall_cons; [apply quiet_in_range|]). apply Forall_nil.
Defined.

Lemma generated_sample_is_accepted_witness :
  snd (add_data iso_text
         (snd (generate_data flat flat init (quiet "2025-01-01T00:00:00")))
         (empty string 100))
  = inr tt.
Proof.
  refine (proj1 (proj2
    (@generated_sample_is_accepted flat flat string iso_text init
       (quiet "2025-01-01T00:00:00") (empty string 100)
       "2025-01-01T00:00:00"%string _))).
  reflexivity.
Defined.

Lemma series_are_aligned_witness :
  exists st : DataStore string,
    add_all iso_text [message 1; message 2; message 3] (empty string 2)
    = (st, inr tt) /\
    Dashboard.battery_voltage st = [PInt 2; PInt 3] /\
    connection_strength st = [PInt 75; PInt 75].
Proof.
  destruct (@series_are_aligned string iso_text 2
              [message 1; message 2; message 3]
              (map message_fields [1; 2; 3]%Z))
    as (st & E & _ & Hv & _ & _ & _ & _ & _ & _ & _ & Hs).
  - reflexivity.
  - repeat (apply Forall2_cons; [reflexivity|]). apply Forall2_nil.
  - exists st. split; [exact E|]. split; [exact Hv | exact Hs].
Defined.

Lemma negative_capacity_keeps_nothing_witness :
  exists st : DataStore string,
    add_all iso_text [message 1; message 2] (empty string (-3))
    = (st, inr tt) /\
    all_length st 0 /\
    latest_data st = Some (message 2).
Proof.
  apply (@negative_capacity_keeps_nothing string iso_text (-3)
           [message 1; message 2] (map message_fields [1; 2]%Z)).
  - reflexivity.
  - repeat (apply Forall2_cons; [reflexivity|]). apply Forall2_nil.
Defined.

Lemma connection_status_style_witness :
  exists bg fg : string,
    update_connection_status
      (fst (add_data iso_text (message 1) (empty string 100))) 0
    = inr (PStr "Good", [("backgroundColor", bg); ("color", fg)]) /\
    fg = "#000000"%string.
Proof.
  destruct (@connection_status_style string
              (fst (add_data iso_text (message 1) (empty string 100))) 0
              (message 1) "Good" eq_refl eq_refl)
    as (bg & fg & E & H & _).
  exists bg, fg. split; [exact E|]. apply H. simpl. auto.
Defined.

Lemma battery_indicator_contrast_witness :
  exists bg fg : string,
    update_battery_indicator (fun _ => "x"%string)
      (fst (add_data iso_text (message 1) (empty string 100))) 0
    = inr ("xV (x%)"%string, [("backgroundColor", bg); ("color", fg)]) /\
    (bg = "#F44336"%string <-> true = false).
Proof.
  destruct (@battery_indicator_contrast string (fun _ => "x"%string)
              (fst (add_data iso_text (message 1) (empty string 100))) 0
              (message 1) (PInt 1) (PInt 50) eq_refl eq_refl eq_refl)
    as (bg & fg & E & _ & H).
  exists bg, fg. split; [exact E | exact H].
Defined.

Lemma gps_map_follows_last_message_witness :
  exists st : DataStore string,
    add_all iso_text [message 1; message 2] (empty string 2)
    = (st, inr tt) /\
    update_gps_map st 0
    = inr (mkGps
             [mkTrace "Path" (Dashboard.latitude st) (Dashboard.longitude st);
              mkTrace "Current Position" [PInt 2] [PInt 2]]
             (PInt 2) (PInt 2)).
Proof.
  apply (@gps_map_follows_last_message string iso_text 2 0
           [message 1; message 2] [message_fields 1] (message_fields 2)).
  - reflexivity.
  - repeat (apply Forall2_cons; [reflexivity|]). apply Forall2_nil.
Defined.

Lemma telemetry_needs_more_than_the_store_witness :
  exists rows,
    update_telemetry_data iso_text (fun t : string => t)
      (fun _ => "x"%string)
      (fst (add_data iso_text (message 1) (empty string 100))) 0
    = inr (inr rows).
Proof.
  apply (proj2 (@telemetry_needs_more_than_the_store string iso_text
                  (fun t : string => t) (fun _ => "x"%string)
                  (fst (add_data iso_text (message 1) (empty string 100)))
                  0 (message 1) eq_refl)).
  split; [reflexivity|]. split; eexists; reflexivity.
Defined.

Lemma chart_traces_are_aligned_witness :
  Forall (fun t => List.length (xs t) = List.length (ys t))
    (update_imu_chart (fun t : string => t)
       (fst (add_data iso_text (message 1) (empty string 100))) 0
     ++ update_alt_temp_chart (fun t : string => t)
          (fst (add_data iso_text (message 1) (empty string 100))) 0).
Proof.
  refine (proj1 (@chart_traces_are_aligned string (fun t : string => t)
                   (fst (add_data iso_text (message 1) (empty string 100)))
                   0 _)).
  unfold equal_length. simpl. repeat split.
Defined.

Lemma pipeline_delivers_samples_witness :
  let d := quiet "2025-01-01T00:00:00" in
  let sample := snd (generate_data flat flat init d) in
  let loads := fun _ : string => @inr exn pyval sample in
  let dumps := fun _ : pyval => "frame"%string in
  Client.data_queue
    (fst (Client.run loads (fst Client.start)
            [Client.Returns ""; Client.Returns "frame"]))
  = [sample].
Proof.
  intros d sample loads dumps.
  refine (proj1 (proj2
    (@pipeline_delivers_samples flat flat string iso_text loads dumps
       init [d] (empty string 100) 0 _ _))).
  - apply Forall_cons; [|apply Forall_nil]. eexists. reflexivity.
  - apply Forall_cons; [|apply Forall_nil]. reflexivity.
Defined.

End MoreExamples.

Section PoseExamples.

Import Pose.
Local Open Scope R_scope.

Lemma rotation_matrix_is_a_rotation_witness :
  apply (rotation_matrix (0, 0, 0.75) (PI / 2)) (0, 0, 0.75) = (0, 0, 0.75).
Proof.
  refine (proj2 (@rotation_matrix_is_a_rotation (0, 0, 0.75) (PI / 2)
                   (0, 0, 0) (0, 0, 0) _)).
  unfold dot. lra.
Defined.

End PoseExamples.
